(** * FinalFormatter: the /api/format request pipeline

    A shallow embedding of the request-assembly pipeline of FinalFormatter:
    the Express route [app.post('/api/format')] of [server.js] (and of its
    twin that also serves the built frontend) and the React handler
    [handleFormat] of the browser client, with the properties their
    specification states about them.

    JavaScript strings are sequences of UTF-16 code units, file contents are
    byte sequences, the two collaborators (mammoth's [extractRawText] and the
    model's [generateContent]) are functions that either throw or return,
    and every call to a collaborator is recorded in a trace. *)

From Stdlib Require Import List NArith ZArith Ascii String Bool Lia.
From Stdlib.Strings Require Import Byte.
Import ListNotations.

Open Scope N_scope.

(* ================================================================== *)
(** ** JavaScript strings *)
(* ================================================================== *)

Module JS.

(** A string is its sequence of UTF-16 code units. *)
Definition jsstring := list N.

(** An ASCII literal of the source. *)
Fixpoint lit (s : string) : jsstring :=
  match s with
  | EmptyString => []
  | String c r => N_of_ascii c :: lit r
  end.

(** The escape [\n] of a JavaScript literal. *)
Definition LF : N := 10.

(** [a === b] on strings. *)
Fixpoint str_eqb (a b : jsstring) : bool :=
  match a, b with
  | [], [] => true
  | x :: a', y :: b' => (x =? y) && str_eqb a' b'
  | _, _ => false
  end.

(** [s.startsWith(p)]. *)
Fixpoint startsWith (s p : jsstring) {struct p} : bool :=
  match p, s with
  | [], _ => true
  | y :: p', x :: s' => (x =? y) && startsWith s' p'
  | _ :: _, [] => false
  end.

(** ToBoolean on a value that is a string or [undefined]: the empty string
    and [undefined] are falsy, every other string is truthy. *)
Definition truthy (v : option jsstring) : bool :=
  match v with
  | Some (_ :: _) => true
  | _ => false
  end.

(** ECMAScript WhiteSpace and LineTerminator code points, the characters
    [String.prototype.trim] removes: TAB, LF, VT, FF, CR, SP, NBSP, the
    Unicode space separators (Zs), LS, PS and the byte order mark. *)
Definition is_white (c : N) : bool :=
  ((9 <=? c) && (c <=? 13)) || (c =? 32) || (c =? 160) || (c =? 5760)
  || ((8192 <=? c) && (c <=? 8202)) || (c =? 8232) || (c =? 8233)
  || (c =? 8239) || (c =? 8287) || (c =? 12288) || (c =? 65279).

Fixpoint trimStart (s : jsstring) : jsstring :=
  match s with
  | [] => []
  | c :: r => if is_white c then trimStart r else s
  end.

Definition trimEnd (s : jsstring) : jsstring := rev (trimStart (rev s)).

(** [s.trim()]. *)
Definition trim (s : jsstring) : jsstring := trimEnd (trimStart s).

(** A string that [trim] empties: only white space, or nothing at all. *)
Definition blank (s : jsstring) : bool := forallb is_white s.

(** [s.split(sep)] for a one-character separator: the pieces between the
    occurrences of [sep], never an empty array. *)
Fixpoint split (sep : N) (s : jsstring) : list jsstring :=
  match s with
  | [] => [[]]
  | c :: r =>
      if c =? sep then [] :: split sep r
      else match split sep r with
           | p :: ps => (c :: p) :: ps
           | [] => [[c]]
           end
  end.

End JS.

(* ================================================================== *)
(** ** Base64 (RFC 4648, section 4) *)
(* ================================================================== *)

(** [Buffer.prototype.toString('base64')] on the server and the payload of
    [FileReader.readAsDataURL] in the browser both produce the standard
    alphabet with [=] padding; [decode] is the decoder of the same RFC. *)
Module Base64.
Import JS.

Definition PAD : N := 61.

(** The character of a 6-bit value: A-Z, a-z, 0-9, [+], [/]. *)
Definition enc (i : N) : N :=
  if i <? 26 then i + 65
  else if i <? 52 then i + 71
  else if i <? 62 then i - 4
  else if i =? 62 then 43
  else 47.

(** The 6-bit value of a character, if it is in the alphabet. *)
Definition dec (c : N) : option N :=
  if (65 <=? c) && (c <=? 90) then Some (c - 65)
  else if (97 <=? c) && (c <=? 122) then Some (c - 71)
  else if (48 <=? c) && (c <=? 57) then Some (c + 4)
  else if c =? 43 then Some 62
  else if c =? 47 then Some 63
  else None.

Fixpoint encode (bs : list byte) : jsstring :=
  match bs with
  | [] => []
  | [a] =>
      let x := Byte.to_N a in
      [enc (x / 4); enc ((x mod 4) * 16); PAD; PAD]
  | [a; b] =>
      let x := Byte.to_N a in
      let y := Byte.to_N b in
      [enc (x / 4); enc ((x mod 4) * 16 + y / 16); enc ((y mod 16) * 4); PAD]
  | a :: b :: c :: r =>
      let x := Byte.to_N a in
      let y := Byte.to_N b in
      let z := Byte.to_N c in
      enc (x / 4) :: enc ((x mod 4) * 16 + y / 16)
        :: enc ((y mod 16) * 4 + z / 64) :: enc (z mod 64) :: encode r
  end.

(** The bytes of one group of four characters, of which the last
    [4 - k] are padding. *)
Definition first_byte (c1 c2 : N) : option byte :=
  match dec c1, dec c2 with
  | Some s1, Some s2 => Byte.of_N (s1 * 4 + s2 / 16)
  | _, _ => None
  end.

Definition second_byte (c2 c3 : N) : option byte :=
  match dec c2, dec c3 with
  | Some s2, Some s3 => Byte.of_N ((s2 mod 16) * 16 + s3 / 4)
  | _, _ => None
  end.

Definition third_byte (c3 c4 : N) : option byte :=
  match dec c3, dec c4 with
  | Some s3, Some s4 => Byte.of_N ((s3 mod 4) * 64 + s4)
  | _, _ => None
  end.

Fixpoint decode (s : jsstring) : option (list byte) :=
  match s with
  | [] => Some []
  | c1 :: c2 :: c3 :: c4 :: r =>
      if c4 =? PAD then
        match r with
        | [] =>
            if c3 =? PAD then
              match first_byte c1 c2 with
              | Some a => Some [a]
              | None => None
              end
            else
              match first_byte c1 c2, second_byte c2 c3 with
              | Some a, Some b => Some [a; b]
              | _, _ => None
              end
        | _ :: _ => None
        end
      else
        match first_byte c1 c2, second_byte c2 c3, third_byte c3 c4,
              decode r with
        | Some a, Some b, Some c, Some t => Some (a :: b :: c :: t)
        | _, _, _, _ => None
        end
  | _ => None
  end.

End Base64.

(* ================================================================== *)
(** ** What the two pipelines share *)
(* ================================================================== *)

Module Core.
Import JS.

(** An element of the [parts] array handed to the model: [{ text }] or
    [{ inlineData: { mimeType, data } }].  [data] is [None] when the
    JavaScript value is [undefined]. *)
Inductive Part : Type :=
  | TextPart (text : jsstring)
  | InlinePart (mimeType : jsstring) (data : option jsstring).

(** An uploaded file: multer's [{ mimetype, buffer }] on the server, a
    browser [File] with its [type] and its bytes on the client. *)
Record File : Type := mkFile { mimetype : jsstring; buffer : list byte }.

(** A thrown [Error]. *)
Record Exn : Type := Error { message : jsstring }.

(** The argument of [generateContent]. *)
Record ModelRequest : Type := mkModelRequest {
  model : jsstring;
  parts : list Part;
  systemInstruction : jsstring
}.

(** A call to a collaborator. *)
Inductive Call : Type :=
  | Extract (bytes : list byte)
  | Generate (request : ModelRequest).

(** The collaborators: mammoth's [extractRawText], which returns
    [result.value] or throws, and the model's [generateContent], whose
    [response.text] is a string or [undefined], or which throws. *)
Record Collaborators : Type := mkCollaborators {
  extractRawText : list byte -> Exn + jsstring;
  generateContent : ModelRequest -> Exn + option jsstring
}.

(** *** Computations that call collaborators and may throw *)

Definition Trace := list Call.

Definition M (A : Type) : Type := Trace -> Trace * (Exn + A).

Definition ret {A} (a : A) : M A := fun log => (log, inr a).

Definition throw {A} (e : Exn) : M A := fun log => (log, inl e).

Definition bind {A B} (m : M A) (k : A -> M B) : M B :=
  fun log =>
    match m log with
    | (log', inr a) => k a log'
    | (log', inl e) => (log', inl e)
    end.

(** [await f(x)] for a collaborator [f]: the call is recorded, then it
    returns or throws. *)
Definition await {X A} (call : X -> Call) (f : X -> Exn + A) (x : X) : M A :=
  fun log => (log ++ [call x], f x).

Declare Scope pipeline_scope.
Delimit Scope pipeline_scope with pipeline.
Notation "x <- m ;; k" := (bind m (fun x => k))
  (at level 100, m at next level, right associativity) : pipeline_scope.

(** The payloads the model was sent, in order. *)
Fixpoint sent (log : Trace) : list (list Part) :=
  match log with
  | [] => []
  | Generate r :: rest => parts r :: sent rest
  | Extract _ :: rest => sent rest
  end.

(** A call without what varies between the environments (the model's name
    and the system instruction, which is not part of the payload). *)
Inductive Contact : Type :=
  | Extraction (bytes : list byte)
  | Payload (parts : list Part).

Definition contact (c : Call) : Contact :=
  match c with
  | Extract b => Extraction b
  | Generate r => Payload (parts r)
  end.

(** *** Constants of the source *)

Definition PDF : jsstring := lit "application/pdf".
Definition IMAGE : jsstring := lit "image/".
Definition DOCX : jsstring :=
  lit "application/vnd.openxmlformats-officedocument.wordprocessingml.document".
Definition TEXT_PLAIN : jsstring := lit "text/plain".

(** [`INSTRUCTIONS:\n${...}`] and [`DOCUMENT CONTENT:\n${...}`]. *)
Definition INSTRUCTIONS : jsstring := lit "INSTRUCTIONS:" ++ [LF].
Definition DOCUMENT_CONTENT : jsstring := lit "DOCUMENT CONTENT:" ++ [LF].

(** The MIME types the if-chains of both pipelines have a branch for. *)
Definition inline (mimeType : jsstring) : bool :=
  str_eqb mimeType PDF || startsWith mimeType IMAGE.

Definition recognized (mimeType : jsstring) : bool :=
  inline mimeType || str_eqb mimeType DOCX || str_eqb mimeType TEXT_PLAIN.

(** The system prompt, a template literal of 24 lines.  The three files
    differ only in how the bullet and the quotation marks of two lines are
    encoded. *)
Definition QUOTE : N := 34.

Definition line (s : string) : jsstring := lit s ++ [LF].

Definition system_prompt (bullet lquote rquote : jsstring) : jsstring :=
  [LF]
  ++ lit "You are " ++ [QUOTE] ++ lit "FinalFormatter" ++ [QUOTE]
  ++ line ", an AI that does 3 things in sequence:"
  ++ [LF]
  ++ line "1) If I upload a file (PDF, DOCX, image), first EXTRACT ALL TEXT from the document."
  ++ line "   - Do NOT summarize."
  ++ line "   - Do NOT correct anything."
  ++ line "   - Just extract the raw text as it appears."
  ++ [LF]
  ++ line "2) Then, based on my instructions, CLEAN and FORMAT that text:"
  ++ line "   - Fix grammar and readability only if I ask for it."
  ++ line "   - Apply headings, sections, bullets, spacing, and tone according to my instructions."
  ++ line "   - Preserve the original meaning."
  ++ line "   - Do NOT add new ideas unless I clearly ask."
  ++ [LF]
  ++ line "3) Finally, give me the result as plain text that I can directly paste into MS Word or Google Docs:"
  ++ line "   - NO markdown symbols (#, ##, *, -) unless I explicitly ask for markdown."
  ++ line "   - Use simple headings like: INTRODUCTION:, CONTEXT:, SUMMARY:, etc."
  ++ lit "   - Use simple bullets like: " ++ bullet ++ line " item"
  ++ [LF]
  ++ line "VERY IMPORTANT:"
  ++ line "- Do NOT explain what you did."
  ++ lit "- Do NOT add any commentary like " ++ lquote
  ++ lit "Here is your formatted text" ++ rquote ++ line "."
  ++ line "- OUTPUT MUST BE ONLY THE FINAL DOCUMENT CONTENT, ready to export.".

End Core.

(* ================================================================== *)
(** ** The server: [app.post('/api/format', upload.single('file'), ...)] *)
(* ================================================================== *)

Module Server.
Import JS Core.
Local Open Scope pipeline_scope.

(** What the handler reads of the request: the text fields [content] and
    [instructions] of [req.body] ([None] when the field is absent, that is
    [undefined]) and [req.file]. *)
Record Request : Type := mkRequest {
  content : option jsstring;
  instructions : option jsstring;
  file : option File
}.

(** What the handler answers: [res.status(s).json({ error, details })] or
    [res.json({ formattedContent })]. *)
Inductive Response : Type :=
  | ErrorJson (status : N) (error : jsstring) (details : option jsstring)
  | FormattedJson (formattedContent : jsstring).

(** The answers of the handler's error paths, under the names the
    specification gives to the error kinds. *)
Definition MissingInstructionsError : Response :=
  ErrorJson 400 (lit "Missing formatting instructions.") None.

Definition UnsupportedMediaTypeError : Response :=
  ErrorJson 400
    (lit "Unsupported file type. Please upload PDF, DOCX, Image, or Text.")
    None.

Definition MissingContentError : Response :=
  ErrorJson 400 (lit "Please provide either a file or document text.") None.

(** The [catch] block. *)
Definition InternalError (e : Exn) : Response :=
  ErrorJson 500 (lit "Internal Processing Error") (Some (message e)).

Definition EMPTY_RESPONSE : Exn := Error (lit "AI returned empty response.").

Definition EmptyModelResponseError : Response := InternalError EMPTY_RESPONSE.

(** [`${v}`] for a string or [undefined]. *)
Definition template (v : option jsstring) : jsstring :=
  match v with
  | Some s => s
  | None => lit "undefined"
  end.

Definition SYSTEM_PROMPT : jsstring := system_prompt [8226] [8220] [8221].

Section ServerHandler.
(** The collaborators, [buffer.toString('utf-8')], and the model the
    file names: ['gemini-2.5-flash'] in [server.js], ['gemini-2.0-flash']
    in the variant that also serves the frontend. *)
Variable co : Collaborators.
Variable utf8 : list byte -> jsstring.
Variable model_name : jsstring.

(** [if (file) { ... } else if (content) { ... } else { return ... }]:
    the part pushed after the instructions, or the response of an early
    [return]. *)
Definition content_part (req : Request) : M (Response + Part) :=
  match file req with
  | Some f =>
      let mimeType := mimetype f in
      if str_eqb mimeType PDF || startsWith mimeType IMAGE then
        ret (inr (InlinePart mimeType (Some (Base64.encode (buffer f)))))
      else if str_eqb mimeType DOCX then
        value <- await Extract (extractRawText co) (buffer f) ;;
        ret (inr (TextPart (DOCUMENT_CONTENT ++ value)))
      else if str_eqb mimeType TEXT_PLAIN then
        ret (inr (TextPart (DOCUMENT_CONTENT ++ utf8 (buffer f))))
      else
        ret (inl UnsupportedMediaTypeError)
  | None =>
      if truthy (content req) then
        ret (inr (TextPart (DOCUMENT_CONTENT ++ template (content req))))
      else
        ret (inl MissingContentError)
  end.

(** [if (!formattedText) throw ...; res.json({ formattedContent })]. *)
Definition validate (formattedText : option jsstring) : M Response :=
  if negb (truthy formattedText) then throw EMPTY_RESPONSE
  else ret (FormattedJson (template formattedText)).

(** The body of the [try] block. *)
Definition handler (req : Request) : M Response :=
  if negb (truthy (instructions req)) then ret MissingInstructionsError
  else
    let parts := [TextPart (INSTRUCTIONS ++ template (instructions req))] in
    pushed <- content_part req ;;
    match pushed with
    | inl response => ret response
    | inr part =>
        let parts := parts ++ [part] in
        formattedText <-
          await Generate (generateContent co)
            (mkModelRequest model_name parts SYSTEM_PROMPT) ;;
        validate formattedText
    end.

(** The route: the handler from an empty trace, with its [catch]. *)
Definition format_route (req : Request) : Trace * Response :=
  match handler req [] with
  | (log, inr response) => (log, response)
  | (log, inl e) => (log, InternalError e)
  end.
End ServerHandler.

End Server.

(* ================================================================== *)
(** ** The client: [handleFormat] of the React component *)
(* ================================================================== *)

Module Client.
Import JS Core.
Local Open Scope pipeline_scope.

(** The component state [handleFormat] reads. *)
Record State : Type := mkState {
  textInput : jsstring;
  instructions : jsstring;
  file : option File
}.

(** What the user sees afterwards: [setError(message)] or
    [setFormattedContent(text)]. *)
Inductive Outcome : Type :=
  | ErrorShown (message : jsstring)
  | Formatted (formattedContent : jsstring).

Definition MissingContentError : Outcome :=
  ErrorShown (lit "Please provide content (paste text or upload file).").

Definition MissingInstructionsError : Outcome :=
  ErrorShown (lit "Please add formatting instructions.").

Definition UNSUPPORTED : Exn :=
  Error (lit "Unsupported file type. Use PDF, DOCX, Image, or Text.").

Definition NO_RESPONSE : Exn := Error (lit "No response generated.").

(** The [catch] block: [setError(err.message || ...)]. *)
Definition Caught (e : Exn) : Outcome :=
  ErrorShown (if truthy (Some (message e)) then message e
              else lit "Failed to format document.").

Definition UnsupportedMediaTypeError : Outcome := Caught UNSUPPORTED.

Definition EmptyModelResponseError : Outcome := Caught NO_RESPONSE.

Definition SYSTEM_PROMPT : jsstring :=
  system_prompt [8218; 196; 162] [8218; 196; 250] [8218; 196; 249].

(** [!s] for a string. *)
Definition falsy (s : jsstring) : bool := negb (truthy (Some s)).

(** [FileReader.readAsDataURL] of a file with a type: the data URL
    [data:<type>;base64,<payload>] (File API, RFC 2397). *)
Definition readAsDataURL (f : File) : jsstring :=
  lit "data:" ++ mimetype f ++ lit ";base64," ++ Base64.encode (buffer f).

Definition COMMA : N := 44.

(** [fileToBase64]: [reader.result.split(',')[1]], [undefined] when the
    array has no second element.  Reading a file the user has selected is
    taken to succeed. *)
Definition fileToBase64 (f : File) : option jsstring :=
  let result := readAsDataURL f in
  nth_error (split COMMA result) 1.

Section ClientHandler.
(** The collaborators and [file.text()]. *)
Variable co : Collaborators.
Variable text : list byte -> jsstring.

(** [if (file) { ... } else { ... }]: the part pushed after the
    instructions. *)
Definition content_part (st : State) : M Part :=
  match file st with
  | Some f =>
      if str_eqb (mimetype f) PDF || startsWith (mimetype f) IMAGE then
        let base64Data := fileToBase64 f in
        ret (InlinePart (mimetype f) base64Data)
      else if str_eqb (mimetype f) DOCX then
        value <- await Extract (extractRawText co) (buffer f) ;;
        ret (TextPart (DOCUMENT_CONTENT ++ value))
      else if str_eqb (mimetype f) TEXT_PLAIN then
        ret (TextPart (DOCUMENT_CONTENT ++ text (buffer f)))
      else
        throw UNSUPPORTED
  | None => ret (TextPart (DOCUMENT_CONTENT ++ textInput st))
  end.

(** [if (response.text) setFormattedContent(...) else throw ...]. *)
Definition validate (response_text : option jsstring) : M Outcome :=
  match response_text with
  | Some s => if truthy (Some s) then ret (Formatted s) else throw NO_RESPONSE
  | None => throw NO_RESPONSE
  end.

(** The body of the [try] block. *)
Definition body (st : State) : M Outcome :=
  let parts := [TextPart (INSTRUCTIONS ++ instructions st)] in
  part <- content_part st ;;
  let parts := parts ++ [part] in
  response_text <-
    await Generate (generateContent co)
      (mkModelRequest (lit "gemini-2.5-flash") parts SYSTEM_PROMPT) ;;
  validate response_text.

(** [handleFormat]: the two guards, then the [try] block from an empty
    trace, with its [catch]. *)
Definition handleFormat (st : State) : Trace * Outcome :=
  if falsy (trim (textInput st))
     && match file st with None => true | Some _ => false end
  then ([], MissingContentError)
  else if falsy (trim (instructions st)) then ([], MissingInstructionsError)
  else
    match body st [] with
    | (log, inr outcome) => (log, outcome)
    | (log, inl e) => (log, Caught e)
    end.
End ClientHandler.

End Client.

(* ================================================================== *)
(** ** Vocabulary of the specification *)
(* ================================================================== *)

Module Spec.
Import JS Core.

(** A content part: inline data, or text under the document label. *)
Definition is_content (p : Part) : bool :=
  match p with
  | TextPart t => startsWith t DOCUMENT_CONTENT
  | InlinePart _ _ => true
  end.

(** The payload the requirements ask for: the instructions under their
    label, then one content part. *)
Definition well_formed (instructions : jsstring) (payload : list Part) : Prop :=
  exists c, payload = [TextPart (INSTRUCTIONS ++ instructions); c]
            /\ is_content c = true.

(** The same input, given to the server: the state of the client as the
    fields of a request. *)
Definition as_request (st : Client.State) : Server.Request :=
  Server.mkRequest (Some (Client.textInput st))
                   (Some (Client.instructions st))
                   (Client.file st).

(** The collaborator calls of a run, as [contact] shows them. *)
Definition contacts (log : Trace) : list Contact := map contact log.

(** The server rejects: it answers with an error. *)
Definition rejected (r : Server.Response) : Prop :=
  match r with
  | Server.ErrorJson _ _ _ => True
  | Server.FormattedJson _ => False
  end.

(** The answer the response validator owes for what the model call gave:
    a non-empty string is passed through untouched, an empty or absent one
    is an empty-response failure, a failed call is reported as it is. *)
Definition server_verdict (r : Exn + option jsstring) : Server.Response :=
  match r with
  | inr (Some (c :: s)) => Server.FormattedJson (c :: s)
  | inr (Some []) => Server.EmptyModelResponseError
  | inr None => Server.EmptyModelResponseError
  | inl e => Server.InternalError e
  end.

Definition client_verdict (r : Exn + option jsstring) : Client.Outcome :=
  match r with
  | inr (Some (c :: s)) => Client.Formatted (c :: s)
  | inr (Some []) => Client.EmptyModelResponseError
  | inr None => Client.EmptyModelResponseError
  | inl e => Client.Caught e
  end.

(** A state of the client with content (a file, or pasted text that is
    not blank) and with instructions that are not blank. *)
Definition passes_guards (st : Client.State) : Prop :=
  (Client.file st <> None \/ blank (Client.textInput st) = false)
  /\ blank (Client.instructions st) = false.

(** The three ways a request can go, as the state machine of the
    requirements has them: it fails before any collaborator is contacted,
    it fails in extraction, or its payload is assembled and sent, and the
    model's answer validated. *)
Section RunRelations.
Variable co : Collaborators.

Definition server_request (model_name i : jsstring) (part : Part)
  : ModelRequest :=
  mkModelRequest model_name [TextPart (INSTRUCTIONS ++ i); part]
                 Server.SYSTEM_PROMPT.

Definition client_request (i : jsstring) (part : Part) : ModelRequest :=
  mkModelRequest (lit "gemini-2.5-flash")
                 [TextPart (INSTRUCTIONS ++ i); part] Client.SYSTEM_PROMPT.

Inductive ServerRun (model_name : jsstring) (req : Server.Request)
  : Trace * Server.Response -> Prop :=
  | ServerRefused (error : jsstring) :
      ServerRun model_name req ([], Server.ErrorJson 400 error None)
  | ServerExtractionFailed (f : File) (e : Exn) :
      Server.file req = Some f ->
      extractRawText co (buffer f) = inl e ->
      ServerRun model_name req
        ([Extract (buffer f)], Server.InternalError e)
  | ServerSent (i : jsstring) (before : Trace) (part : Part) :
      Server.instructions req = Some i -> i <> [] ->
      sent before = [] -> is_content part = true ->
      ServerRun model_name req
        (before ++ [Generate (server_request model_name i part)],
         server_verdict
           (generateContent co (server_request model_name i part))).

Inductive ClientRun (st : Client.State) : Trace * Client.Outcome -> Prop :=
  | ClientRefused (message : jsstring) :
      ClientRun st ([], Client.ErrorShown message)
  | ClientExtractionFailed (f : File) (e : Exn) :
      Client.file st = Some f ->
      extractRawText co (buffer f) = inl e ->
      ClientRun st ([Extract (buffer f)], Client.Caught e)
  | ClientSent (before : Trace) (part : Part) :
      blank (Client.instructions st) = false ->
      sent before = [] -> is_content part = true ->
      ClientRun st
        (before ++ [Generate (client_request (Client.instructions st) part)],
         client_verdict
           (generateContent co
              (client_request (Client.instructions st) part))).
End RunRelations.

(** No comma in a string. *)
Definition comma_free (s : jsstring) : bool :=
  forallb (fun c => negb (c =? Client.COMMA)) s.

End Spec.

(* ================================================================== *)
(** ** Stub collaborators and concrete inputs *)
(* ================================================================== *)

Module Stub.
Import JS Core.

(** A model that answers [OK] and an extractor that finds [hello]. *)
Definition helpful : Collaborators :=
  mkCollaborators (fun _ => inr (lit "hello"))
                  (fun _ => inr (Some (lit "OK"))).

(** An extractor that finds no text in the document. *)
Definition empty_docx : Collaborators :=
  mkCollaborators (fun _ => inr [])
                  (fun _ => inr (Some (lit "OK"))).

(** A model that answers with the empty string. *)
Definition silent : Collaborators :=
  mkCollaborators (fun _ => inr (lit "hello"))
                  (fun _ => inr (Some [])).

(** UTF-8 decoding of ASCII bytes. *)
Definition ascii (bs : list byte) : jsstring := map Byte.to_N bs.

Definition FLASH : jsstring := lit "gemini-2.5-flash".

Definition ZIP : jsstring := lit "application/zip".
Definition PNG : jsstring := lit "image/png".

Definition bytes_hi : list byte := [x68; x69]%byte.

(** Pasted text [hello world] with instructions [make it uppercase]. *)
Definition pasted_request : Server.Request :=
  Server.mkRequest (Some (lit "hello world")) (Some (lit "make it uppercase"))
                   None.

Definition pasted_state : Client.State :=
  Client.mkState (lit "hello world") (lit "make it uppercase") None.

Definition pasted_payload : list Part :=
  [TextPart (INSTRUCTIONS ++ lit "make it uppercase");
   TextPart (DOCUMENT_CONTENT ++ lit "hello world")].

(** An archive, uploaded with and without instructions. *)
Definition zip_file : File := mkFile ZIP bytes_hi.

Definition zip_request (instructions : option jsstring) : Server.Request :=
  Server.mkRequest None instructions (Some zip_file).

Definition zip_state (instructions : jsstring) : Client.State :=
  Client.mkState [] instructions (Some zip_file).

(** An image together with pasted text. *)
Definition png_file : File := mkFile PNG bytes_hi.

Definition png_state : Client.State :=
  Client.mkState [] (lit "extract text") (Some png_file).

Definition image_and_text : Server.Request :=
  Server.mkRequest (Some (lit "x")) (Some (lit "go")) (Some png_file).

(** Pasted text with instructions that are a single space. *)
Definition space_instructions : Server.Request :=
  Server.mkRequest (Some (lit "x")) (Some (lit " ")) None.

(** Pasted text that is a single space. *)
Definition space_text : Client.State :=
  Client.mkState (lit " ") (lit "go") None.

(** An empty pasted string, no file, with and without instructions. *)
Definition empty_text (instructions : option jsstring) : Server.Request :=
  Server.mkRequest (Some []) instructions None.

(** A word-processing document. *)
Definition docx_file : File := mkFile DOCX bytes_hi.

Definition docx_request : Server.Request :=
  Server.mkRequest None (Some (lit "go")) (Some docx_file).

Definition docx_state : Client.State :=
  Client.mkState [] (lit "go") (Some docx_file).

(** A file whose type starts with [image/] and contains a comma. *)
Definition comma_file : File := mkFile (lit "image/a,b") bytes_hi.

Definition comma_state : Client.State :=
  Client.mkState [] (lit "go") (Some comma_file).

End Stub.

(* ================================================================== *)
(** ** The client component: its state and its event handlers *)
(* ================================================================== *)

Module UI.
Import JS Core.

(** The state of [App]: the seven [useState] cells. *)
Record Component : Type := mkComponent {
  textInput : jsstring;
  instructions : jsstring;
  file : option File;
  formattedContent : jsstring;
  loading : bool;
  error : option jsstring;
  isHovering : bool
}.

(** The initial values of the cells. *)
Definition initial : Component := mkComponent [] [] None [] false None false.

Definition setTextInput (v : jsstring) (ui : Component) : Component :=
  mkComponent v (instructions ui) (file ui) (formattedContent ui)
              (loading ui) (error ui) (isHovering ui).

Definition setInstructions (v : jsstring) (ui : Component) : Component :=
  mkComponent (textInput ui) v (file ui) (formattedContent ui)
              (loading ui) (error ui) (isHovering ui).

Definition setFile (v : option File) (ui : Component) : Component :=
  mkComponent (textInput ui) (instructions ui) v (formattedContent ui)
              (loading ui) (error ui) (isHovering ui).

Definition setFormattedContent (v : jsstring) (ui : Component) : Component :=
  mkComponent (textInput ui) (instructions ui) (file ui) v
              (loading ui) (error ui) (isHovering ui).

Definition setLoading (v : bool) (ui : Component) : Component :=
  mkComponent (textInput ui) (instructions ui) (file ui) (formattedContent ui)
              v (error ui) (isHovering ui).

Definition setError (v : option jsstring) (ui : Component) : Component :=
  mkComponent (textInput ui) (instructions ui) (file ui) (formattedContent ui)
              (loading ui) v (isHovering ui).

Definition setIsHovering (v : bool) (ui : Component) : Component :=
  mkComponent (textInput ui) (instructions ui) (file ui) (formattedContent ui)
              (loading ui) (error ui) v.

(** What [handleFormat] reads of the component. *)
Definition state_of (ui : Component) : Client.State :=
  Client.mkState (textInput ui) (instructions ui) (file ui).

(** [handleFileChange]: [e.target.files] is a list of files or [null]; a
    first file is stored and the pasted text cleared. *)
Definition handleFileChange (files : option (list File)) (ui : Component)
  : Component :=
  match files with
  | Some (f :: _) => setTextInput [] (setFile (Some f) ui)
  | _ => ui
  end.

(** [clearFile]. *)
Definition clearFile (ui : Component) : Component := setFile None ui.

(** [onChange] of the text area: the text is stored and the file cleared. *)
Definition onTextChange (value : jsstring) (ui : Component) : Component :=
  setFile None (setTextInput value ui).

(** [onChange] of the instructions. *)
Definition onInstructionsChange (value : jsstring) (ui : Component)
  : Component :=
  setInstructions value ui.

(** [disabled={loading || (!textInput && !file) || !instructions}]. *)
Definition button_disabled (ui : Component) : bool :=
  loading ui
  || (Client.falsy (textInput ui)
      && match file ui with None => true | Some _ => false end)
  || Client.falsy (instructions ui).

(** [disabled={!!file}] of the text area. *)
Definition textarea_disabled (ui : Component) : bool :=
  match file ui with Some _ => true | None => false end.

(** The copy button is rendered when [formattedContent] is truthy. *)
Definition copy_shown (ui : Component) : bool :=
  truthy (Some (formattedContent ui)).

(** A file and pasted text are not held together. *)
Definition exclusive (ui : Component) : Prop :=
  file ui = None \/ textInput ui = [].

Section ComponentHandlers.
Variable co : Collaborators.
Variable text : list byte -> jsstring.

(** [handleFormat] with its writes to the component: a guard that fails
    only sets the error; past the guards the error and the result are
    reset and [loading] set, the [try] block runs, its result or the
    caught error is stored, and [finally] clears [loading]. *)
Definition handleFormat (ui : Component) : Trace * Component :=
  if Client.falsy (trim (textInput ui))
     && match file ui with None => true | Some _ => false end
  then
    ([], setError
           (Some (lit "Please provide content (paste text or upload file)."))
           ui)
  else if Client.falsy (trim (instructions ui)) then
    ([], setError (Some (lit "Please add formatting instructions.")) ui)
  else
    let ui := setFormattedContent [] (setError None (setLoading true ui)) in
    match Client.body co text (state_of ui) [] with
    | (log, inr (Client.Formatted s)) =>
        (log, setLoading false (setFormattedContent s ui))
    | (log, inr (Client.ErrorShown m)) =>
        (log, setLoading false (setError (Some m) ui))
    | (log, inl e) =>
        (log, setLoading false
                (setError
                   (Some (if truthy (Some (message e)) then message e
                          else lit "Failed to format document."))
                   ui))
    end.

(** The events of the page.  An element that is disabled or not rendered
    dispatches nothing; a click on the button is taken to run
    [handleFormat] to its end before the next event. *)
Inductive Event : Type :=
  | FileChange (files : option (list File))
  | ClearFileClick
  | TextChange (value : jsstring)
  | InstructionsChange (value : jsstring)
  | MouseEnter
  | MouseLeave
  | FormatClick.

Definition step (ui : Component) (ev : Event) : Trace * Component :=
  match ev with
  | FileChange files => ([], handleFileChange files ui)
  | ClearFileClick =>
      ([], match file ui with Some _ => clearFile ui | None => ui end)
  | TextChange value =>
      ([], if textarea_disabled ui then ui else onTextChange value ui)
  | InstructionsChange value => ([], onInstructionsChange value ui)
  | MouseEnter => ([], setIsHovering true ui)
  | MouseLeave => ([], setIsHovering false ui)
  | FormatClick => if button_disabled ui then ([], ui) else handleFormat ui
  end.

(** A session: the events in order, the collaborator calls they cause and
    the component they leave. *)
Fixpoint session (ui : Component) (events : list Event) : Trace * Component :=
  match events with
  | [] => ([], ui)
  | ev :: rest =>
      let (log, ui') := step ui ev in
      let (log', ui'') := session ui' rest in
      (log ++ log', ui'')
  end.

(** The number of clicks on the format button among the events. *)
Fixpoint format_clicks (events : list Event) : nat :=
  match events with
  | [] => 0
  | FormatClick :: rest => S (format_clicks rest)
  | _ :: rest => format_clicks rest
  end.
End ComponentHandlers.

End UI.

(* ================================================================== *)
(** ** Further collaborators and inputs *)
(* ================================================================== *)

Module Scenario.
Import JS Core.

(** An extractor that rejects the document. *)
Definition broken_docx : Collaborators :=
  mkCollaborators (fun _ => inl (Error (lit "bad zip")))
                  (fun _ => inr (Some (lit "OK"))).

(** A model that cannot be reached. *)
Definition offline : Collaborators :=
  mkCollaborators (fun _ => inr (lit "hello"))
                  (fun _ => inl (Error (lit "quota"))).

(** A plain-text file. *)
Definition txt_file : File := mkFile TEXT_PLAIN Stub.bytes_hi.

Definition txt_request : Server.Request :=
  Server.mkRequest None (Some (lit "go")) (Some txt_file).

Definition txt_state : Client.State :=
  Client.mkState [] (lit "go") (Some txt_file).

(** Pasted text with white space around it. *)
Definition padded_request : Server.Request :=
  Server.mkRequest (Some (lit " a ")) (Some (lit " go ")) None.

Definition padded_state : Client.State :=
  Client.mkState (lit " a ") (lit " go ") None.

(** A component with pasted text and instructions. *)
Definition typed : UI.Component :=
  UI.mkComponent (lit "hello world") (lit "make it uppercase") None
                 [] false None false.

(** A component that shows an earlier result and whose instructions are a
    single space. *)
Definition stale : UI.Component :=
  UI.mkComponent (lit "hello world") (lit " ") None
                 (lit "OLD") false None false.

(** Typing, selecting a file, asking for the format. *)
Definition clicks : list UI.Event :=
  [UI.TextChange (lit "draft");
   UI.FileChange (Some [Stub.png_file]);
   UI.InstructionsChange (lit "extract text");
   UI.FormatClick].

End Scenario.

(* ================================================================== *)
(** ** The decision tables of the two pipelines *)
(* ================================================================== *)

Module Table.
Import JS Core Spec.

Section Tables.
Variable co : Collaborators.
Variable utf8 text : list byte -> jsstring.
Variable model_name : jsstring.

(** The run of a payload that has been assembled: the calls made before,
    the call to the model, the verdict on its answer. *)
Definition server_sends (before : Trace) (i : jsstring) (part : Part)
  : Trace * Server.Response :=
  (before ++ [Generate (server_request model_name i part)],
   server_verdict (generateContent co (server_request model_name i part))).

Definition client_sends (before : Trace) (i : jsstring) (part : Part)
  : Trace * Client.Outcome :=
  (before ++ [Generate (client_request i part)],
   client_verdict (generateContent co (client_request i part))).

(** The eight ways through the server's handler, each with what decides it
    and with the run it gives. *)
Inductive ServerCase (req : Server.Request) : Prop :=
  | ServerNoInstructions :
      truthy (Server.instructions req) = false ->
      Server.format_route co utf8 model_name req
      = ([], Server.MissingInstructionsError) ->
      ServerCase req
  | ServerUnsupported (i : jsstring) (f : File) :
      Server.instructions req = Some i -> i <> [] ->
      Server.file req = Some f -> recognized (mimetype f) = false ->
      Server.format_route co utf8 model_name req
      = ([], Server.UnsupportedMediaTypeError) ->
      ServerCase req
  | ServerNoContent (i : jsstring) :
      Server.instructions req = Some i -> i <> [] ->
      Server.file req = None -> truthy (Server.content req) = false ->
      Server.format_route co utf8 model_name req
      = ([], Server.MissingContentError) ->
      ServerCase req
  | ServerInline (i : jsstring) (f : File) :
      Server.instructions req = Some i -> i <> [] ->
      Server.file req = Some f -> inline (mimetype f) = true ->
      Server.format_route co utf8 model_name req
      = server_sends [] i
          (InlinePart (mimetype f) (Some (Base64.encode (buffer f)))) ->
      ServerCase req
  | ServerDocxFailed (i : jsstring) (f : File) (e : Exn) :
      Server.instructions req = Some i -> i <> [] ->
      Server.file req = Some f -> mimetype f = DOCX ->
      extractRawText co (buffer f) = inl e ->
      Server.format_route co utf8 model_name req
      = ([Extract (buffer f)], Server.InternalError e) ->
      ServerCase req
  | ServerDocx (i : jsstring) (f : File) (value : jsstring) :
      Server.instructions req = Some i -> i <> [] ->
      Server.file req = Some f -> mimetype f = DOCX ->
      extractRawText co (buffer f) = inr value ->
      Server.format_route co utf8 model_name req
      = server_sends [Extract (buffer f)] i
          (TextPart (DOCUMENT_CONTENT ++ value)) ->
      ServerCase req
  | ServerTextFile (i : jsstring) (f : File) :
      Server.instructions req = Some i -> i <> [] ->
      Server.file req = Some f -> mimetype f = TEXT_PLAIN ->
      Server.format_route co utf8 model_name req
      = server_sends [] i
          (TextPart (DOCUMENT_CONTENT ++ utf8 (buffer f))) ->
      ServerCase req
  | ServerPasted (i c : jsstring) :
      Server.instructions req = Some i -> i <> [] ->
      Server.file req = None -> Server.content req = Some c -> c <> [] ->
      Server.format_route co utf8 model_name req
      = server_sends [] i (TextPart (DOCUMENT_CONTENT ++ c)) ->
      ServerCase req.

(** The eight ways through [handleFormat]. *)
Inductive ClientCase (st : Client.State) : Prop :=
  | ClientNoContent :
      Client.file st = None -> blank (Client.textInput st) = true ->
      Client.handleFormat co text st = ([], Client.MissingContentError) ->
      ClientCase st
  | ClientNoInstructions :
      Client.file st <> None \/ blank (Client.textInput st) = false ->
      blank (Client.instructions st) = true ->
      Client.handleFormat co text st
      = ([], Client.MissingInstructionsError) ->
      ClientCase st
  | ClientUnsupported (f : File) :
      blank (Client.instructions st) = false ->
      Client.file st = Some f -> recognized (mimetype f) = false ->
      Client.handleFormat co text st
      = ([], Client.UnsupportedMediaTypeError) ->
      ClientCase st
  | ClientInline (f : File) :
      blank (Client.instructions st) = false ->
      Client.file st = Some f -> inline (mimetype f) = true ->
      Client.handleFormat co text st
      = client_sends [] (Client.instructions st)
          (InlinePart (mimetype f) (Client.fileToBase64 f)) ->
      ClientCase st
  | ClientDocxFailed (f : File) (e : Exn) :
      blank (Client.instructions st) = false ->
      Client.file st = Some f -> mimetype f = DOCX ->
      extractRawText co (buffer f) = inl e ->
      Client.handleFormat co text st
      = ([Extract (buffer f)], Client.Caught e) ->
      ClientCase st
  | ClientDocx (f : File) (value : jsstring) :
      blank (Client.instructions st) = false ->
      Client.file st = Some f -> mimetype f = DOCX ->
      extractRawText co (buffer f) = inr value ->
      Client.handleFormat co text st
      = client_sends [Extract (buffer f)] (Client.instructions st)
          (TextPart (DOCUMENT_CONTENT ++ value)) ->
      ClientCase st
  | ClientTextFile (f : File) :
      blank (Client.instructions st) = false ->
      Client.file st = Some f -> mimetype f = TEXT_PLAIN ->
      Client.handleFormat co text st
      = client_sends [] (Client.instructions st)
          (TextPart (DOCUMENT_CONTENT ++ text (buffer f))) ->
      ClientCase st
  | ClientPasted :
      blank (Client.instructions st) = false ->
      Client.file st = None -> blank (Client.textInput st) = false ->
      Client.handleFormat co text st
      = client_sends [] (Client.instructions st)
          (TextPart (DOCUMENT_CONTENT ++ Client.textInput st)) ->
      ClientCase st.
End Tables.

End Table.

(* ================================================================== *)
(** ** Media types *)
(* ================================================================== *)

Module Mime.
Import JS.

(** The [tspecials] of RFC 2045, section 5.1: the parentheses, the angle
    and the square brackets, the at sign, the comma, the semicolon, the
    colon, the backslash, the double quote, the slash, the question mark
    and the equals sign. *)
Definition tspecial (c : N) : bool :=
  existsb (N.eqb c) [40; 41; 60; 62; 64; 44; 59; 58; 92; 34; 47; 91; 93; 63; 61].

(** A character of a token: US-ASCII, not a space, not a control, not a
    [tspecial]. *)
Definition token_char (c : N) : bool :=
  (33 <=? c) && (c <=? 126) && negb (tspecial c).

(** A token: one or more token characters. *)
Definition token (s : jsstring) : bool :=
  match s with
  | [] => false
  | _ :: _ => forallb token_char s
  end.

Definition SLASH : N := 47.

(** A media type, as a file's [type] and multer's [mimetype] carry it:
    [type "/" subtype], both tokens. *)
Definition media_type (m : jsstring) : bool :=
  match split SLASH m with
  | [type; subtype] => token type && token subtype
  | _ => false
  end.

End Mime.

(* ================================================================== *)
(** ** Facts about strings *)
(* ================================================================== *)

Module JSFacts.
Import JS.

Lemma str_eqb_eq (a b : jsstring) : str_eqb a b = true <-> a = b.
Proof.
  revert b; induction a as [|x a IH]; intros [|y b]; simpl;
    try (split; [discriminate | congruence]); try tauto.
  rewrite andb_true_iff, N.eqb_eq, IH.
  split; [intros [-> ->]; reflexivity | intros H; inversion H; auto].
Qed.

Lemma str_eqb_refl (a : jsstring) : str_eqb a a = true.
Proof. apply str_eqb_eq; reflexivity. Qed.

Lemma str_eqb_neq (a b : jsstring) : str_eqb a b = false <-> a <> b.
Proof.
  rewrite <- str_eqb_eq. destruct (str_eqb a b); split; congruence.
Qed.

Lemma startsWith_app (p s : jsstring) : startsWith (p ++ s) p = true.
Proof. induction p; simpl; [reflexivity|]. now rewrite N.eqb_refl. Qed.

Lemma startsWith_prefix (s p : jsstring) :
  startsWith s p = true -> exists r, s = p ++ r.
Proof.
  revert s; induction p as [|y p IH]; intros s H; simpl in *.
  - now exists s.
  - destruct s as [|x s]; [discriminate|].
    apply andb_true_iff in H as [Hx Hs]. apply N.eqb_eq in Hx; subst.
    destruct (IH _ Hs) as [r ->]. now exists r.
Qed.

Lemma trimStart_nil_iff (s : jsstring) : trimStart s = [] <-> blank s = true.
Proof.
  induction s as [|c r IH]; simpl; [tauto|].
  destruct (is_white c); simpl; [exact IH|].
  split; discriminate.
Qed.

Lemma trimStart_head (s : jsstring) c r :
  trimStart s = c :: r -> is_white c = false.
Proof.
  induction s as [|x s IH]; simpl; [discriminate|].
  destruct (is_white x) eqn:W; [exact IH|].
  intros H; inversion H; subst; exact W.
Qed.

Lemma blank_app (a b : jsstring) : blank (a ++ b) = blank a && blank b.
Proof. apply forallb_app. Qed.

Lemma blank_rev (s : jsstring) : blank (rev s) = blank s.
Proof.
  induction s as [|c r IH]; simpl; [reflexivity|].
  rewrite blank_app, IH. simpl. rewrite andb_true_r. apply andb_comm.
Qed.

(** [!s.trim()] holds exactly for the blank strings. *)
Lemma trim_nil_iff (s : jsstring) : trim s = [] <-> blank s = true.
Proof.
  unfold trim, trimEnd. split.
  - intros H. apply (f_equal (@rev N)) in H.
    rewrite rev_involutive in H. simpl in H.
    apply trimStart_nil_iff in H. rewrite blank_rev in H.
    apply trimStart_nil_iff.
    destruct (trimStart s) as [|c r] eqn:E; [reflexivity|].
    apply trimStart_head in E. simpl in H. now rewrite E in H.
  - intros H. apply trimStart_nil_iff in H. now rewrite H.
Qed.

Lemma blank_nil_or (s : jsstring) : blank s = false -> s <> [].
Proof. intros H ->. discriminate. Qed.

End JSFacts.

(* ================================================================== *)
(** ** Base64: decoding undoes encoding *)
(* ================================================================== *)

Module Base64Facts.
Import JS Base64.

Ltac bool_cases :=
  repeat match goal with
    | |- context [if ?b then _ else _] => destruct b eqn:?
    end;
  repeat match goal with
    | H : (_ && _)%bool = true |- _ => apply andb_true_iff in H; destruct H
    | H : (_ && _)%bool = false |- _ => apply andb_false_iff in H; destruct H
    | H : (_ <? _) = true |- _ => apply N.ltb_lt in H
    | H : (_ <? _) = false |- _ => apply N.ltb_ge in H
    | H : (_ <=? _) = true |- _ => apply N.leb_le in H
    | H : (_ <=? _) = false |- _ => apply N.leb_gt in H
    | H : (_ =? _) = true |- _ => apply N.eqb_eq in H
    | H : (_ =? _) = false |- _ => apply N.eqb_neq in H
    end.

Lemma dec_enc (i : N) : i < 64 -> dec (enc i) = Some i.
Proof.
  intros Hi. unfold enc. bool_cases; unfold dec; bool_cases;
    try (f_equal; lia); lia.
Qed.

Lemma enc_lt_128 (i : N) : enc i < 128.
Proof. unfold enc. bool_cases; lia. Qed.

(** No character of the alphabet is the padding sign or a comma. *)
Lemma enc_not_pad (i : N) : (enc i =? PAD) = false.
Proof. apply N.eqb_neq. unfold enc, PAD. bool_cases; lia. Qed.

Lemma enc_not_comma (i : N) : (enc i =? 44) = false.
Proof. apply N.eqb_neq. unfold enc. bool_cases; lia. Qed.

Ltac div_lia :=
  zify; Z.to_euclidean_division_equations; lia.

(** The arithmetic of one group: splitting three bytes into four 6-bit
    values and putting them together again. *)
Lemma sextets_first (x s : N) :
  x <= 255 -> s < 16 ->
  x / 4 < 64 /\ x mod 4 * 16 + s < 64
  /\ x / 4 * 4 + (x mod 4 * 16 + s) / 16 = x.
Proof. intros; repeat split; div_lia. Qed.

Lemma sextets_second (y s t : N) :
  y <= 255 -> s < 4 -> t < 4 ->
  s * 16 + y / 16 < 64 /\ y mod 16 * 4 + t < 64
  /\ (s * 16 + y / 16) mod 16 * 16 + (y mod 16 * 4 + t) / 4 = y.
Proof. intros; repeat split; div_lia. Qed.

Lemma sextets_third (z s : N) :
  z <= 255 -> s < 16 ->
  s * 4 + z / 64 < 64 /\ z mod 64 < 64
  /\ (s * 4 + z / 64) mod 4 * 64 + z mod 64 = z.
Proof. intros; repeat split; div_lia. Qed.

Lemma first_byte_enc (a : byte) (s : N) :
  s < 16 ->
  first_byte (enc (Byte.to_N a / 4)) (enc (Byte.to_N a mod 4 * 16 + s))
  = Some a.
Proof.
  intros Hs.
  destruct (sextets_first _ s (Byte.to_N_bounded a) Hs) as (H1 & H2 & H3).
  unfold first_byte. rewrite !dec_enc, H3 by assumption.
  apply Byte.of_to_N.
Qed.

Lemma second_byte_enc (b : byte) (s t : N) :
  s < 4 -> t < 4 ->
  second_byte (enc (s * 16 + Byte.to_N b / 16))
              (enc (Byte.to_N b mod 16 * 4 + t))
  = Some b.
Proof.
  intros Hs Ht.
  destruct (sextets_second _ s t (Byte.to_N_bounded b) Hs Ht)
    as (H1 & H2 & H3).
  unfold second_byte. rewrite !dec_enc, H3 by assumption.
  apply Byte.of_to_N.
Qed.

Lemma third_byte_enc (c : byte) (s : N) :
  s < 16 ->
  third_byte (enc (s * 4 + Byte.to_N c / 64)) (enc (Byte.to_N c mod 64))
  = Some c.
Proof.
  intros Hs.
  destruct (sextets_third _ s (Byte.to_N_bounded c) Hs) as (H1 & H2 & H3).
  unfold third_byte. rewrite !dec_enc, H3 by assumption.
  apply Byte.of_to_N.
Qed.

Lemma list_ind3 {A} (P : list A -> Prop) :
  P [] -> (forall a, P [a]) -> (forall a b, P [a; b]) ->
  (forall a b c r, P r -> P (a :: b :: c :: r)) ->
  forall l, P l.
Proof.
  intros H0 H1 H2 H3. fix IH 1.
  intros [|a [|b [|c r]]];
    [exact H0 | apply H1 | apply H2 | apply H3, IH].
Qed.

(** Decoding the encoding of a byte sequence gives the sequence back. *)
Lemma decode_encode (bs : list byte) : decode (encode bs) = Some bs.
Proof.
  induction bs as [|a|a b|a b c r IH] using list_ind3.
  - reflexivity.
  - cbn [encode decode]. rewrite N.eqb_refl.
    replace (Byte.to_N a mod 4 * 16) with (Byte.to_N a mod 4 * 16 + 0) by lia.
    now rewrite first_byte_enc by lia.
  - pose proof (Byte.to_N_bounded a). pose proof (Byte.to_N_bounded b).
    cbn [encode decode]. rewrite N.eqb_refl, enc_not_pad.
    rewrite first_byte_enc by div_lia.
    replace (Byte.to_N b mod 16 * 4) with (Byte.to_N b mod 16 * 4 + 0) by lia.
    now rewrite second_byte_enc by div_lia.
  - pose proof (Byte.to_N_bounded a). pose proof (Byte.to_N_bounded b).
    pose proof (Byte.to_N_bounded c).
    cbn [encode]. cbn [decode]. rewrite enc_not_pad.
    rewrite first_byte_enc, second_byte_enc, third_byte_enc by div_lia.
    fold decode. now rewrite IH.
Qed.

(** The encoding contains no comma. *)
Lemma encode_no_comma (bs : list byte) :
  forallb (fun c => negb (c =? 44)) (encode bs) = true.
Proof.
  induction bs as [|a|a b|a b c r IH] using list_ind3;
    cbn [encode forallb]; rewrite ?enc_not_comma; auto.
Qed.

End Base64Facts.

(* ================================================================== *)
(** ** The runs of the server route *)
(* ================================================================== *)

Module ServerFacts.
Import JS Core Server Spec JSFacts.

Section ServerRuns.
Variable co : Collaborators.
Variable utf8 : list byte -> jsstring.
Variable model_name : jsstring.

Local Notation "'route'" := (format_route co utf8 model_name).
Local Notation "'request_for' i part" :=
  (mkModelRequest model_name [TextPart (INSTRUCTIONS ++ i); part]
                  SYSTEM_PROMPT)
  (at level 10, i at level 9, part at level 9).

Lemma truthy_Some (v : option jsstring) :
  truthy v = true -> exists c s, v = Some (c :: s).
Proof. destruct v as [[|c s]|]; try discriminate. now exists c, s. Qed.

Lemma truthy_nonempty (s : jsstring) : s <> [] -> truthy (Some s) = true.
Proof. destruct s; [congruence | reflexivity]. Qed.

(** Without instructions the route answers before anything else. *)
Lemma route_no_instructions (req : Request) :
  truthy (instructions req) = false ->
  route req = ([], MissingInstructionsError).
Proof.
  intros H. unfold format_route, handler. now rewrite H.
Qed.

(** Once a part has been pushed, the model is called with the two parts
    and its answer is validated. *)
Lemma route_pushes (req : Request) (i : jsstring) log part :
  instructions req = Some i -> i <> [] ->
  content_part co utf8 req [] = (log, inr (inr part)) ->
  route req = (log ++ [Generate (request_for i part)],
               server_verdict (generateContent co (request_for i part))).
Proof.
  intros Hi Hne Hp. unfold format_route, handler, bind.
  rewrite Hi, truthy_nonempty by assumption. cbn [negb]. cbv beta iota.
  rewrite Hp. cbn.
  unfold await.
  destruct (generateContent co _) as [e|[[|c s]|]]; reflexivity.
Qed.

(** An early [return] of the content branch is the answer. *)
Lemma route_returns (req : Request) log response :
  truthy (instructions req) = true ->
  content_part co utf8 req [] = (log, inr (inl response)) ->
  route req = (log, response).
Proof.
  intros Hi Hp. unfold format_route, handler, bind.
  rewrite Hi. cbn [negb]. cbv beta iota. now rewrite Hp.
Qed.

(** A failed extraction is caught. *)
Lemma route_throws (req : Request) log e :
  truthy (instructions req) = true ->
  content_part co utf8 req [] = (log, inl e) ->
  route req = (log, InternalError e).
Proof.
  intros Hi Hp. unfold format_route, handler, bind.
  rewrite Hi. cbn [negb]. cbv beta iota. now rewrite Hp.
Qed.

(** The content branch, case by case. *)
Lemma server_content_inline (req : Request) f :
  file req = Some f -> inline (mimetype f) = true ->
  content_part co utf8 req [] =
    ([], inr (inr (InlinePart (mimetype f)
                              (Some (Base64.encode (buffer f)))))).
Proof.
  intros Hf Hi. unfold content_part. rewrite Hf.
  unfold inline in Hi. now rewrite Hi.
Qed.

Lemma server_content_docx (req : Request) f :
  file req = Some f -> mimetype f = DOCX ->
  content_part co utf8 req [] =
    ([Extract (buffer f)],
     match extractRawText co (buffer f) with
     | inr value => inr (inr (TextPart (DOCUMENT_CONTENT ++ value)))
     | inl e => inl e
     end).
Proof.
  intros Hf Hm. unfold content_part. rewrite Hf, Hm. cbn.
  unfold bind, await. now destruct (extractRawText co (buffer f)).
Qed.

Lemma server_content_text_file (req : Request) f :
  file req = Some f -> mimetype f = TEXT_PLAIN ->
  content_part co utf8 req [] =
    ([], inr (inr (TextPart (DOCUMENT_CONTENT ++ utf8 (buffer f))))).
Proof.
  intros Hf Hm. unfold content_part. now rewrite Hf, Hm.
Qed.

Lemma server_content_unsupported (req : Request) f :
  file req = Some f -> recognized (mimetype f) = false ->
  content_part co utf8 req [] = ([], inr (inl UnsupportedMediaTypeError)).
Proof.
  intros Hf Hr. unfold content_part. rewrite Hf.
  unfold recognized, inline in Hr.
  apply orb_false_iff in Hr as [Hr H3].
  apply orb_false_iff in Hr as [H1 H2].
  now rewrite H1, H2, H3.
Qed.

Lemma server_content_pasted (req : Request) c s :
  file req = None -> content req = Some (c :: s) ->
  content_part co utf8 req [] =
    ([], inr (inr (TextPart (DOCUMENT_CONTENT ++ c :: s)))).
Proof.
  intros Hf Hc. unfold content_part. now rewrite Hf, Hc.
Qed.

Lemma server_content_missing (req : Request) :
  file req = None -> truthy (content req) = false ->
  content_part co utf8 req [] = ([], inr (inl MissingContentError)).
Proof.
  intros Hf Hc. unfold content_part. now rewrite Hf, Hc.
Qed.

(** A MIME type is recognized exactly when it is one of the four the
    if-chain names. *)
Lemma recognized_cases (m : jsstring) :
  recognized m = true ->
  inline m = true \/ (inline m = false /\ m = DOCX)
  \/ (inline m = false /\ m <> DOCX /\ m = TEXT_PLAIN).
Proof.
  unfold recognized. destruct (inline m); [now left|]. right.
  destruct (str_eqb m DOCX) eqn:D.
  - left. now apply str_eqb_eq in D.
  - right. apply str_eqb_neq in D. simpl in H.
    apply str_eqb_eq in H. auto.
Qed.
End ServerRuns.

End ServerFacts.

(* ================================================================== *)
(** ** The runs of the client handler *)
(* ================================================================== *)

Module ClientFacts.
Import JS Core Client Spec JSFacts.

(** [!s.trim()] is the blank test. *)
Lemma falsy_trim (s : jsstring) : falsy (trim s) = blank s.
Proof.
  unfold falsy. destruct (blank s) eqn:B.
  - apply trim_nil_iff in B. now rewrite B.
  - destruct (trim s) eqn:T; [|reflexivity].
    apply trim_nil_iff in T. congruence.
Qed.

(** *** [split] and the data URL *)

Lemma split_without (sep : N) (s : jsstring) :
  forallb (fun c => negb (c =? sep)) s = true -> split sep s = [s].
Proof.
  induction s as [|c r IH]; simpl; [reflexivity|].
  intros H. apply andb_true_iff in H as [Hc Hr].
  apply negb_true_iff in Hc. now rewrite Hc, IH.
Qed.

Lemma split_at_first (sep : N) (a b : jsstring) :
  forallb (fun c => negb (c =? sep)) a = true ->
  split sep (a ++ sep :: b) = a :: split sep b.
Proof.
  induction a as [|c r IH]; simpl; intros H.
  - now rewrite N.eqb_refl.
  - apply andb_true_iff in H as [Hc Hr].
    apply negb_true_iff in Hc. now rewrite Hc, IH.
Qed.

(** For a type without a comma, [fileToBase64] is the Base64 encoding of
    the bytes. *)
Lemma fileToBase64_comma_free (f : File) :
  comma_free (mimetype f) = true ->
  fileToBase64 f = Some (Base64.encode (buffer f)).
Proof.
  intros H. unfold fileToBase64, readAsDataURL.
  change (lit ";base64,") with (lit ";base64" ++ [COMMA]).
  replace (lit "data:" ++ mimetype f ++ (lit ";base64" ++ [COMMA])
           ++ Base64.encode (buffer f))
    with ((lit "data:" ++ mimetype f ++ lit ";base64")
          ++ COMMA :: Base64.encode (buffer f))
    by (now rewrite <- !app_assoc).
  rewrite split_at_first.
  - rewrite split_without by apply Base64Facts.encode_no_comma.
    reflexivity.
  - rewrite !forallb_app. unfold comma_free in H. now rewrite H.
Qed.

Section ClientRuns.
Variable co : Collaborators.
Variable text : list byte -> jsstring.

Local Notation "'run'" := (handleFormat co text).
Local Notation "'request_for' i part" :=
  (mkModelRequest (lit "gemini-2.5-flash")
                  [TextPart (INSTRUCTIONS ++ i); part] SYSTEM_PROMPT)
  (at level 10, i at level 9, part at level 9).

Lemma run_no_content (st : State) :
  file st = None -> blank (textInput st) = true ->
  run st = ([], MissingContentError).
Proof.
  intros Hf Hb. unfold handleFormat. now rewrite falsy_trim, Hb, Hf.
Qed.

Lemma first_guard (st : State) :
  file st <> None \/ blank (textInput st) = false ->
  falsy (trim (textInput st))
  && match file st with None => true | Some _ => false end = false.
Proof.
  rewrite falsy_trim. intros [H|H].
  - destruct (file st); [apply andb_false_r | congruence].
  - now rewrite H.
Qed.

Lemma run_no_instructions (st : State) :
  file st <> None \/ blank (textInput st) = false ->
  blank (instructions st) = true ->
  run st = ([], MissingInstructionsError).
Proof.
  intros Hc Hb. unfold handleFormat.
  now rewrite (first_guard _ Hc), falsy_trim, Hb.
Qed.

Lemma run_pushes (st : State) log part :
  passes_guards st ->
  content_part co text st [] = (log, inr part) ->
  run st =
    (log ++ [Generate (request_for (instructions st) part)],
     client_verdict
       (generateContent co (request_for (instructions st) part))).
Proof.
  intros [Hc Hb] Hp. unfold handleFormat.
  rewrite (first_guard _ Hc), falsy_trim, Hb.
  unfold body, bind. rewrite Hp. cbn. unfold await.
  destruct (generateContent co _) as [e|[[|c s]|]]; reflexivity.
Qed.

Lemma run_throws (st : State) log e :
  passes_guards st ->
  content_part co text st [] = (log, inl e) ->
  run st = (log, Caught e).
Proof.
  intros [Hc Hb] Hp. unfold handleFormat.
  rewrite (first_guard _ Hc), falsy_trim, Hb.
  unfold body, bind. now rewrite Hp.
Qed.

(** The content branch, case by case. *)
Lemma client_content_inline (st : State) f :
  file st = Some f -> inline (mimetype f) = true ->
  content_part co text st [] =
    ([], inr (InlinePart (mimetype f) (fileToBase64 f))).
Proof.
  intros Hf Hi. unfold content_part. rewrite Hf.
  unfold inline in Hi. now rewrite Hi.
Qed.

Lemma client_content_docx (st : State) f :
  file st = Some f -> mimetype f = DOCX ->
  content_part co text st [] =
    ([Extract (buffer f)],
     match extractRawText co (buffer f) with
     | inr value => inr (TextPart (DOCUMENT_CONTENT ++ value))
     | inl e => inl e
     end).
Proof.
  intros Hf Hm. unfold content_part. rewrite Hf, Hm. cbn.
  unfold bind, await. now destruct (extractRawText co (buffer f)).
Qed.

Lemma client_content_text_file (st : State) f :
  file st = Some f -> mimetype f = TEXT_PLAIN ->
  content_part co text st [] =
    ([], inr (TextPart (DOCUMENT_CONTENT ++ text (buffer f)))).
Proof.
  intros Hf Hm. unfold content_part. now rewrite Hf, Hm.
Qed.

Lemma client_content_unsupported (st : State) f :
  file st = Some f -> recognized (mimetype f) = false ->
  content_part co text st [] = ([], inl UNSUPPORTED).
Proof.
  intros Hf Hr. unfold content_part. rewrite Hf.
  unfold recognized, inline in Hr.
  apply orb_false_iff in Hr as [Hr H3].
  apply orb_false_iff in Hr as [H1 H2].
  now rewrite H1, H2, H3.
Qed.

Lemma client_content_pasted (st : State) :
  file st = None ->
  content_part co text st [] =
    ([], inr (TextPart (DOCUMENT_CONTENT ++ textInput st))).
Proof. intros Hf. unfold content_part. now rewrite Hf. Qed.
End ClientRuns.

End ClientFacts.

(* ================================================================== *)
(** ** Every run goes one of the three ways *)
(* ================================================================== *)

Module RunFacts.
Import JS Core Spec JSFacts.

Lemma is_content_label (t : jsstring) :
  is_content (TextPart (DOCUMENT_CONTENT ++ t)) = true.
Proof. apply startsWith_app. Qed.

Create HintDb runs.
#[local] Hint Resolve is_content_label : runs.

Section AllRuns.
Variable co : Collaborators.
Variable utf8 text : list byte -> jsstring.
Variable model_name : jsstring.

Lemma server_run (req : Server.Request) :
  ServerRun co model_name req (Server.format_route co utf8 model_name req).
Proof.
  destruct (truthy (Server.instructions req)) eqn:Hi.
  2:{ rewrite ServerFacts.route_no_instructions by assumption.
      constructor. }
  destruct (ServerFacts.truthy_Some _ Hi) as (c & s & Ei).
  assert (Hne : c :: s <> []) by discriminate.
  destruct (Server.file req) as [f|] eqn:Hf.
  - destruct (recognized (mimetype f)) eqn:Hr.
    + apply ServerFacts.recognized_cases in Hr
        as [Hin | [[Hin Hd] | (Hin & Hd & Ht)]].
      * erewrite ServerFacts.route_pushes
          by eauto using ServerFacts.server_content_inline.
        now apply (ServerSent co model_name req (c :: s) []).
      * pose proof (ServerFacts.server_content_docx co utf8 req f Hf Hd) as Hc.
        destruct (extractRawText co (buffer f)) as [e|value] eqn:Hx.
        -- erewrite ServerFacts.route_throws by eauto.
           now apply ServerExtractionFailed.
        -- erewrite ServerFacts.route_pushes by eauto.
           apply (ServerSent co model_name req (c :: s)
                             [Extract (buffer f)]);
             auto with runs.
      * erewrite ServerFacts.route_pushes
          by eauto using ServerFacts.server_content_text_file.
        apply (ServerSent co model_name req (c :: s) []); auto with runs.
    + erewrite ServerFacts.route_returns
        by eauto using ServerFacts.server_content_unsupported.
      constructor.
  - destruct (truthy (Server.content req)) eqn:Hc.
    + destruct (ServerFacts.truthy_Some _ Hc) as (c' & s' & Ec).
      erewrite ServerFacts.route_pushes
        by eauto using ServerFacts.server_content_pasted.
      apply (ServerSent co model_name req (c :: s) []); auto with runs.
    + erewrite ServerFacts.route_returns
        by eauto using ServerFacts.server_content_missing.
      constructor.
Qed.

Lemma client_run (st : Client.State) :
  ClientRun co st (Client.handleFormat co text st).
Proof.
  destruct (Client.file st) as [f|] eqn:Hf.
  - assert (Hc : Client.file st <> None
                 \/ blank (Client.textInput st) = false)
      by (left; congruence).
    destruct (blank (Client.instructions st)) eqn:Hb.
    { rewrite ClientFacts.run_no_instructions by assumption.
      constructor. }
    assert (Hg : passes_guards st) by (split; assumption).
    destruct (recognized (mimetype f)) eqn:Hr.
    + apply ServerFacts.recognized_cases in Hr
        as [Hin | [[Hin Hd] | (Hin & Hd & Ht)]].
      * erewrite ClientFacts.run_pushes
          by eauto using ClientFacts.client_content_inline.
        now apply (ClientSent co st []).
      * pose proof (ClientFacts.client_content_docx co text st f Hf Hd) as Hp.
        destruct (extractRawText co (buffer f)) as [e|value] eqn:Hx.
        -- erewrite ClientFacts.run_throws by eauto.
           now apply ClientExtractionFailed.
        -- erewrite ClientFacts.run_pushes by eauto.
           apply (ClientSent co st [Extract (buffer f)]);
             auto with runs.
      * erewrite ClientFacts.run_pushes
          by eauto using ClientFacts.client_content_text_file.
        apply (ClientSent co st []); auto with runs.
    + erewrite ClientFacts.run_throws
        by eauto using ClientFacts.client_content_unsupported.
      constructor.
  - destruct (blank (Client.textInput st)) eqn:Ht.
    { rewrite ClientFacts.run_no_content by assumption. constructor. }
    destruct (blank (Client.instructions st)) eqn:Hb.
    { rewrite ClientFacts.run_no_instructions by auto. constructor. }
    erewrite ClientFacts.run_pushes
      by (try split; eauto using ClientFacts.client_content_pasted).
    apply (ClientSent co st []); auto with runs.
Qed.

(** What a run has sent: nothing, or one payload. *)
Lemma sent_snoc (before : Trace) (r : ModelRequest) :
  sent before = [] -> sent (before ++ [Generate r]) = [parts r].
Proof.
  induction before as [|[b|r'] rest IH]; simpl; auto; discriminate.
Qed.

Lemma no_generate (before : Trace) (r : ModelRequest) :
  sent before = [] -> ~ In (Generate r) before.
Proof.
  induction before as [|[b|r'] rest IH]; simpl; intros Hs H.
  - exact H.
  - destruct H as [H|H]; [discriminate | exact (IH Hs H)].
  - discriminate.
Qed.

Lemma generate_last (before : Trace) (r r' : ModelRequest) :
  sent before = [] -> In (Generate r) (before ++ [Generate r']) -> r = r'.
Proof.
  intros Hs H. apply in_app_or in H as [H|[H|[]]].
  - now apply no_generate in H.
  - congruence.
Qed.

(** The payloads are read off the contacts. *)
Lemma same_contacts (a b : Trace) :
  contacts a = contacts b -> contacts a = contacts b /\ sent a = sent b.
Proof.
  intros H. split; [exact H|]. revert b H.
  induction a as [|[x|r] a IH]; intros [|[y|r'] b] H;
    try discriminate H; simpl in *; try reflexivity;
    injection H as ? H; auto.
  f_equal; auto.
Qed.

(** The verdicts succeed exactly on a non-empty string, which they pass
    through. *)
Lemma server_verdict_formatted (r : Exn + option jsstring) (s : jsstring) :
  server_verdict r = Server.FormattedJson s <-> r = inr (Some s) /\ s <> [].
Proof.
  destruct r as [e|[[|c t]|]]; simpl; split;
    try discriminate; try (intros [H ?]; congruence).
  - intros H; inversion H; split; [reflexivity | discriminate].
Qed.

Lemma client_verdict_formatted (r : Exn + option jsstring) (s : jsstring) :
  client_verdict r = Client.Formatted s <-> r = inr (Some s) /\ s <> [].
Proof.
  destruct r as [e|[[|c t]|]]; simpl; split;
    try discriminate; try (intros [H ?]; congruence).
  - intros H; inversion H; split; [reflexivity | discriminate].
Qed.
End AllRuns.

End RunFacts.

(* ================================================================== *)
(** ** The definitions on concrete inputs *)
(* ================================================================== *)

Module Examples.
Import JS Core Spec Stub.

Example trim_both_ends : trim (lit "  a b ") = lit "a b".
Proof. reflexivity. Qed.

Example trim_line_ends : trim ([LF; 13; 160] ++ lit "x" ++ [8232]) = lit "x".
Proof. reflexivity. Qed.

Example split_three : split 44 (lit "a,b,,c") = [lit "a"; lit "b"; []; lit "c"].
Proof. reflexivity. Qed.

Example starts_with_image : startsWith (lit "image/png") IMAGE = true.
Proof. reflexivity. Qed.

Example not_an_image : startsWith (lit "imag") IMAGE = false.
Proof. reflexivity. Qed.

Example base64_hi : Base64.encode bytes_hi = lit "aGk=".
Proof. reflexivity. Qed.

Example base64_man : Base64.encode [x4d; x61; x6e]%byte = lit "TWFu".
Proof. reflexivity. Qed.

Example base64_one : Base64.encode [xff]%byte = lit "/w==".
Proof. reflexivity. Qed.

Example base64_back : Base64.decode (lit "TWFuaGk=") =
                      Some [x4d; x61; x6e; x68; x69]%byte.
Proof. reflexivity. Qed.

Example base64_bad_length : Base64.decode (lit "aGk") = None.
Proof. reflexivity. Qed.

Example data_url :
  Client.readAsDataURL png_file = lit "data:image/png;base64,aGk=".
Proof. reflexivity. Qed.

Example data_url_payload : Client.fileToBase64 png_file = Some (lit "aGk=").
Proof. reflexivity. Qed.

(** Pasted text [hello world] with instructions [make it uppercase] and a
    model that answers. *)
Example server_pasted :
  Server.format_route helpful ascii FLASH pasted_request
  = ([Generate (mkModelRequest FLASH pasted_payload Server.SYSTEM_PROMPT)],
     Server.FormattedJson (lit "OK")).
Proof. reflexivity. Qed.

Example client_pasted :
  Client.handleFormat helpful ascii pasted_state
  = ([Generate (mkModelRequest FLASH pasted_payload Client.SYSTEM_PROMPT)],
     Client.Formatted (lit "OK")).
Proof. reflexivity. Qed.

(** An image with instructions [extract text]. *)
Example client_image :
  sent (fst (Client.handleFormat helpful ascii png_state))
  = [[TextPart (INSTRUCTIONS ++ lit "extract text");
      InlinePart PNG (Some (lit "aGk="))]].
Proof. reflexivity. Qed.

(** An extraction that throws is reported, and the model is not called. *)
Example server_extraction_fails :
  Server.format_route
    (mkCollaborators (fun _ => inl (Error (lit "bad zip")))
                     (fun _ => inr (Some (lit "OK"))))
    ascii FLASH docx_request
  = ([Extract bytes_hi],
     Server.ErrorJson 500 (lit "Internal Processing Error")
                      (Some (lit "bad zip"))).
Proof. reflexivity. Qed.

(** A model without an answer. *)
Example server_silent_model :
  snd (Server.format_route silent ascii FLASH pasted_request)
  = Server.ErrorJson 500 (lit "Internal Processing Error")
                     (Some (lit "AI returned empty response.")).
Proof. reflexivity. Qed.

(** The system prompts of the server and of the client differ. *)
Example prompts_differ : Server.SYSTEM_PROMPT <> Client.SYSTEM_PROMPT.
Proof.
  intros H. apply (f_equal (fun s => str_eqb s Client.SYSTEM_PROMPT)) in H.
  vm_compute in H. discriminate H.
Qed.

End Examples.

(* ================================================================== *)
(** ** The properties of the specification *)
(* ================================================================== *)

Import JS Core Spec.

(** C1: every payload that reaches the model, on the server and on the
    client and whatever the modality, is the instruction text part
    (the instructions under the label [INSTRUCTIONS:\n]) at index 0
    followed by exactly one content part at index 1; and a run sends at
    most one payload. *)
Theorem payload_shape (co : Collaborators) (utf8 text : list byte -> jsstring)
    (model_name : jsstring) :
  (forall req p,
      In p (sent (fst (Server.format_route co utf8 model_name req))) ->
      (exists i, Server.instructions req = Some i /\ well_formed i p)
      /\ sent (fst (Server.format_route co utf8 model_name req)) = [p])
  /\
  (forall st p,
      In p (sent (fst (Client.handleFormat co text st))) ->
      well_formed (Client.instructions st) p
      /\ sent (fst (Client.handleFormat co text st)) = [p]).
Proof.
  split.
  - intros req p.
    destruct (RunFacts.server_run co utf8 model_name req)
      as [error | f e Hf He | i before part Hi Hne Hb Hc]; simpl.
    + intros [].
    + intros [].
    + rewrite RunFacts.sent_snoc by assumption. intros [<-|[]].
      split; [|reflexivity].
      exists i. split; [assumption|]. now exists part.
  - intros st p.
    destruct (RunFacts.client_run co text st)
      as [message | f e Hf He | before part Hi Hb Hc]; simpl.
    + intros [].
    + intros [].
    + rewrite RunFacts.sent_snoc by assumption. intros [<-|[]].
      split; [|reflexivity]. now exists part.
Qed.

Lemma payload_shape_witness :
  ((exists i, Server.instructions Stub.pasted_request = Some i
              /\ well_formed i Stub.pasted_payload)
   /\ sent (fst (Server.format_route Stub.helpful Stub.ascii Stub.FLASH
                                     Stub.pasted_request))
      = [Stub.pasted_payload])
  /\
  (well_formed (Client.instructions Stub.pasted_state) Stub.pasted_payload
   /\ sent (fst (Client.handleFormat Stub.helpful Stub.ascii
                                     Stub.pasted_state))
      = [Stub.pasted_payload]).
Proof.
  split.
  - apply (proj1 (payload_shape Stub.helpful Stub.ascii Stub.ascii
                                Stub.FLASH)).
    vm_compute. left. reflexivity.
  - apply (proj2 (payload_shape Stub.helpful Stub.ascii Stub.ascii
                                Stub.FLASH)).
    vm_compute. left. reflexivity.
Defined.

(** C2, as stated, fails: an archive uploaded without instructions is
    answered with the missing-instructions error, not with the
    unsupported-type error. *)
Lemma unsupported_regardless_counterexample :
  ~ (forall co utf8 model_name req f,
        Server.file req = Some f -> recognized (mimetype f) = false ->
        snd (Server.format_route co utf8 model_name req)
        = Server.UnsupportedMediaTypeError).
Proof.
  intros H.
  specialize (H Stub.helpful Stub.ascii Stub.FLASH (Stub.zip_request None)
                Stub.zip_file eq_refl eq_refl).
  vm_compute in H. discriminate H.
Qed.

(** C2, amended: a file whose MIME type is outside the recognized set is
    answered with the unsupported-type error when instructions are present
    and with the missing-instructions error when they are not (absent or
    empty on the server, blank on the client); in both cases no
    collaborator is contacted. *)
Theorem unsupported_media_type (co : Collaborators)
    (utf8 text : list byte -> jsstring) (model_name : jsstring) :
  (forall req f,
      Server.file req = Some f -> recognized (mimetype f) = false ->
      Server.format_route co utf8 model_name req
      = ([], if truthy (Server.instructions req)
             then Server.UnsupportedMediaTypeError
             else Server.MissingInstructionsError))
  /\
  (forall st f,
      Client.file st = Some f -> recognized (mimetype f) = false ->
      Client.handleFormat co text st
      = ([], if blank (Client.instructions st)
             then Client.MissingInstructionsError
             else Client.UnsupportedMediaTypeError)).
Proof.
  split.
  - intros req f Hf Hr. destruct (truthy (Server.instructions req)) eqn:Hi.
    + eapply ServerFacts.route_returns;
        eauto using ServerFacts.server_content_unsupported.
    + now apply ServerFacts.route_no_instructions.
  - intros st f Hf Hr.
    assert (Hc : Client.file st <> None
                 \/ blank (Client.textInput st) = false)
      by (left; congruence).
    destruct (blank (Client.instructions st)) eqn:Hb.
    + now apply ClientFacts.run_no_instructions.
    + eapply ClientFacts.run_throws; [split; assumption|].
      eauto using ClientFacts.client_content_unsupported.
Qed.

Lemma unsupported_media_type_witness :
  (Server.format_route Stub.helpful Stub.ascii Stub.FLASH
     (Stub.zip_request (Some (lit "go")))
   = ([], Server.UnsupportedMediaTypeError)
   /\ Server.format_route Stub.helpful Stub.ascii Stub.FLASH
        (Stub.zip_request None)
      = ([], Server.MissingInstructionsError))
  /\
  (Client.handleFormat Stub.helpful Stub.ascii (Stub.zip_state (lit "go"))
   = ([], Client.UnsupportedMediaTypeError)
   /\ Client.handleFormat Stub.helpful Stub.ascii (Stub.zip_state (lit " "))
      = ([], Client.MissingInstructionsError)).
Proof.
  pose proof (unsupported_media_type Stub.helpful Stub.ascii Stub.ascii
                                     Stub.FLASH) as [Hs Hc].
  split; split.
  - exact (Hs (Stub.zip_request (Some (lit "go"))) Stub.zip_file
              eq_refl eq_refl).
  - exact (Hs (Stub.zip_request None) Stub.zip_file eq_refl eq_refl).
  - exact (Hc (Stub.zip_state (lit "go")) Stub.zip_file eq_refl eq_refl).
  - exact (Hc (Stub.zip_state (lit " ")) Stub.zip_file eq_refl eq_refl).
Defined.

(** C3, as stated, fails: a request with both an image and pasted text is
    not rejected; the model is called and its answer returned. *)
Lemma single_artifact_counterexample :
  ~ (forall co utf8 model_name req f c,
        Server.file req = Some f -> Server.content req = Some c ->
        c <> [] ->
        rejected (snd (Server.format_route co utf8 model_name req))).
Proof.
  intros H.
  assert (Hc : lit "x" <> []) by discriminate.
  exact (H Stub.helpful Stub.ascii Stub.FLASH Stub.image_and_text
           Stub.png_file (lit "x") eq_refl eq_refl Hc).
Qed.

(** C3, amended: when a file is supplied, pasted text supplied with it is
    ignored by both pipelines: the run (the collaborator calls and the
    answer) is the same whatever the pasted text, so the file alone
    decides. *)
Theorem file_takes_precedence (co : Collaborators)
    (utf8 text : list byte -> jsstring) (model_name : jsstring)
    (f : File) (pasted pasted' : jsstring) :
  (forall instructions,
      Server.format_route co utf8 model_name
        (Server.mkRequest (Some pasted) instructions (Some f))
      = Server.format_route co utf8 model_name
          (Server.mkRequest None instructions (Some f)))
  /\
  (forall instructions,
      Client.handleFormat co text
        (Client.mkState pasted instructions (Some f))
      = Client.handleFormat co text
          (Client.mkState pasted' instructions (Some f))).
Proof.
  split; intros instructions.
  - reflexivity.
  - unfold Client.handleFormat. cbn [Client.file Client.textInput].
    now rewrite !andb_false_r.
Qed.

(** On the server, decoding the [data] of the inline part gives the bytes
    of the file, under the file's MIME type. *)
Lemma server_inline_roundtrip (co : Collaborators)
    (utf8 : list byte -> jsstring) (req : Server.Request) (f : File) :
  Server.file req = Some f -> inline (mimetype f) = true ->
  exists data,
    Server.content_part co utf8 req []
    = ([], inr (inr (InlinePart (mimetype f) (Some data))))
    /\ Base64.decode data = Some (buffer f).
Proof.
  intros Hf Hi. exists (Base64.encode (buffer f)). split.
  - now apply ServerFacts.server_content_inline.
  - apply Base64Facts.decode_encode.
Qed.

(** The same on the client, for a type without a comma. *)
Lemma client_inline_roundtrip (co : Collaborators)
    (text : list byte -> jsstring) (st : Client.State) (f : File) :
  Client.file st = Some f -> inline (mimetype f) = true ->
  comma_free (mimetype f) = true ->
  exists data,
    Client.content_part co text st []
    = ([], inr (InlinePart (mimetype f) (Some data)))
    /\ Base64.decode data = Some (buffer f).
Proof.
  intros Hf Hi Hc. exists (Base64.encode (buffer f)). split.
  - rewrite (ClientFacts.client_content_inline co text st f Hf Hi).
    now rewrite ClientFacts.fileToBase64_comma_free.
  - apply Base64Facts.decode_encode.
Qed.

(** A string with a comma is not a media type; for a file so typed,
    [image/a,b], the part carries the declared type, but its data is the
    piece of the data URL between the first and the second comma,
    [b;base64], which is not the Base64 of the file and does not decode. *)
Theorem client_inline_comma_type :
  inline (mimetype Stub.comma_file) = true
  /\ sent (fst (Client.handleFormat Stub.helpful Stub.ascii Stub.comma_state))
     = [[TextPart (INSTRUCTIONS ++ lit "go");
         InlinePart (lit "image/a,b") (Some (lit "b;base64"))]]
  /\ Base64.decode (lit "b;base64") = None
  /\ Base64.decode (lit "b;base64") <> Some (buffer Stub.comma_file).
Proof.
  repeat split; try reflexivity. discriminate.
Qed.

(** [split] gives back the pieces of the string it was given. *)
Lemma split_has_piece (sep : N) (s : jsstring) :
  exists p ps, split sep s = p :: ps.
Proof.
  destruct s as [|c r]; simpl; [now exists [], []|].
  destruct (c =? sep); [now exists [], (split sep r)|].
  destruct (split sep r) as [|p ps]; eauto.
Qed.

Lemma split_one (sep : N) (s piece : jsstring) :
  split sep s = [piece] -> s = piece.
Proof.
  revert piece. induction s as [|c r IH]; simpl; intros piece H.
  - now inversion H.
  - destruct (split_has_piece sep r) as (p & ps & E). rewrite E in H.
    destruct (c =? sep); [discriminate H|].
    inversion H; subst. now rewrite (IH p E).
Qed.

Lemma split_two (sep : N) (s left right : jsstring) :
  split sep s = [left; right] -> s = left ++ sep :: right.
Proof.
  revert left. induction s as [|c r IH]; simpl; intros left H.
  - discriminate H.
  - destruct (c =? sep) eqn:C.
    + apply N.eqb_eq in C. subst c. inversion H as [[Hl Hr]].
      now rewrite (split_one _ _ _ Hr).
    + destruct (split_has_piece sep r) as (p & ps & E). rewrite E in H.
      inversion H; subst. now rewrite (IH p E).
Qed.

(** No comma in a token, and none in a media type. *)
Lemma token_char_not_comma (c : N) :
  Mime.token_char c = true -> negb (c =? Client.COMMA) = true.
Proof.
  intros H. destruct (c =? Client.COMMA) eqn:E; [|reflexivity].
  apply N.eqb_eq in E. subst c. discriminate H.
Qed.

Lemma token_comma_free (s : jsstring) :
  Mime.token s = true -> comma_free s = true.
Proof.
  destruct s as [|c r]; [discriminate|]. unfold Mime.token, comma_free.
  rewrite !forallb_forall. intros H x Hx.
  apply token_char_not_comma. now apply H.
Qed.

Lemma media_type_comma_free (m : jsstring) :
  Mime.media_type m = true -> comma_free m = true.
Proof.
  unfold Mime.media_type.
  destruct (split Mime.SLASH m) as [|t [|u [|]]] eqn:E; try discriminate.
  intros H. apply andb_true_iff in H as [Ht Hu].
  rewrite (split_two _ _ _ _ E). unfold comma_free.
  rewrite forallb_app. cbn [forallb].
  apply token_comma_free in Ht, Hu. unfold comma_free in Ht, Hu.
  now rewrite Ht, Hu.
Qed.

Example media_type_png : Mime.media_type Stub.PNG = true.
Proof. reflexivity. Qed.

Example media_type_pdf : Mime.media_type PDF = true.
Proof. reflexivity. Qed.

Example media_type_svg : Mime.media_type (lit "image/svg+xml") = true.
Proof. reflexivity. Qed.

Example media_type_no_subtype : Mime.media_type IMAGE = false.
Proof. reflexivity. Qed.

Example media_type_no_comma :
  Mime.media_type (mimetype Stub.comma_file) = false.
Proof. reflexivity. Qed.

(** C4: for every file classified as inline binary (its MIME type is
    [application/pdf] or starts with [image/]), the part produced for it
    is an inline part whose [mimeType] is the declared type and whose
    data Base64-decodes to the bytes of the file: on the server for every
    type string, on the client for every media type. *)
Theorem inline_data_round_trip (co : Collaborators)
    (utf8 text : list byte -> jsstring) (f : File) :
  inline (mimetype f) = true ->
  (forall req,
      Server.file req = Some f ->
      exists data,
        Server.content_part co utf8 req []
        = ([], inr (inr (InlinePart (mimetype f) (Some data))))
        /\ Base64.decode data = Some (buffer f))
  /\
  (Mime.media_type (mimetype f) = true ->
   forall st,
     Client.file st = Some f ->
     exists data,
       Client.content_part co text st []
       = ([], inr (InlinePart (mimetype f) (Some data)))
       /\ Base64.decode data = Some (buffer f)).
Proof.
  intros Hin. split.
  - intros req Hf. exists (Base64.encode (buffer f)). split.
    + now apply ServerFacts.server_content_inline.
    + apply Base64Facts.decode_encode.
  - intros Hm st Hf. exists (Base64.encode (buffer f)). split.
    + rewrite (ClientFacts.client_content_inline co text st f Hf Hin).
      now rewrite ClientFacts.fileToBase64_comma_free
        by now apply media_type_comma_free.
    + apply Base64Facts.decode_encode.
Qed.

Lemma inline_data_round_trip_witness :
  (exists data,
      Server.content_part Stub.helpful Stub.ascii Stub.image_and_text []
      = ([], inr (inr (InlinePart Stub.PNG (Some data))))
      /\ Base64.decode data = Some Stub.bytes_hi)
  /\
  (exists data,
      Client.content_part Stub.helpful Stub.ascii Stub.png_state []
      = ([], inr (InlinePart Stub.PNG (Some data)))
      /\ Base64.decode data = Some Stub.bytes_hi).
Proof.
  pose proof (inline_data_round_trip Stub.helpful Stub.ascii Stub.ascii
                Stub.png_file eq_refl) as [Hs Hc].
  split.
  - exact (Hs Stub.image_and_text eq_refl).
  - exact (Hc eq_refl Stub.png_state eq_refl).
Defined.

(** C5, as stated, fails: instructions that are a single space are blank,
    yet the server assembles the payload and calls the model. *)
Lemma blank_instructions_counterexample :
  ~ (forall co utf8 model_name req i,
        Server.instructions req = Some i -> blank i = true ->
        Server.format_route co utf8 model_name req
        = ([], Server.MissingInstructionsError)).
Proof.
  intros H.
  specialize (H Stub.helpful Stub.ascii Stub.FLASH Stub.space_instructions
                (lit " ") eq_refl eq_refl).
  vm_compute in H. discriminate H.
Qed.

(** C5, amended: on the server, instructions that are absent or the empty
    string are answered with the missing-instructions error for every
    artifact (and for none), with no collaborator contacted; on the
    client, the same holds for instructions that are blank (empty or white
    space only) whenever a file or pasted text that is not blank is
    present. *)
Theorem missing_instructions_first (co : Collaborators)
    (utf8 text : list byte -> jsstring) (model_name : jsstring) :
  (forall req,
      Server.instructions req = None \/ Server.instructions req = Some [] ->
      Server.format_route co utf8 model_name req
      = ([], Server.MissingInstructionsError))
  /\
  (forall st,
      Client.file st <> None \/ blank (Client.textInput st) = false ->
      blank (Client.instructions st) = true ->
      Client.handleFormat co text st = ([], Client.MissingInstructionsError)).
Proof.
  split.
  - intros req H. apply ServerFacts.route_no_instructions.
    destruct H as [-> | ->]; reflexivity.
  - intros st Hc Hb. now apply ClientFacts.run_no_instructions.
Qed.

Lemma missing_instructions_first_witness :
  Server.format_route Stub.empty_docx Stub.ascii Stub.FLASH
    (Server.mkRequest None (Some []) (Some Stub.docx_file))
  = ([], Server.MissingInstructionsError)
  /\
  Client.handleFormat Stub.empty_docx Stub.ascii
    (Client.mkState [] (lit " ") (Some Stub.docx_file))
  = ([], Client.MissingInstructionsError).
Proof.
  pose proof (missing_instructions_first Stub.empty_docx Stub.ascii
                Stub.ascii Stub.FLASH) as [Hs Hc].
  split.
  - exact (Hs (Server.mkRequest None (Some []) (Some Stub.docx_file))
              (or_intror eq_refl)).
  - apply (Hc (Client.mkState [] (lit " ") (Some Stub.docx_file))).
    + left. discriminate.
    + reflexivity.
Defined.

(** C6: with instructions present, a file whose MIME type is outside the
    recognized set is answered with the unsupported-type error and the
    trace of collaborator calls is empty: neither extraction nor the model
    has been invoked. *)
Theorem unsupported_is_terminal (co : Collaborators)
    (utf8 text : list byte -> jsstring) (model_name : jsstring) :
  (forall req f i,
      Server.instructions req = Some i -> i <> [] ->
      Server.file req = Some f -> recognized (mimetype f) = false ->
      Server.format_route co utf8 model_name req
      = ([], Server.UnsupportedMediaTypeError))
  /\
  (forall st f,
      blank (Client.instructions st) = false ->
      Client.file st = Some f -> recognized (mimetype f) = false ->
      Client.handleFormat co text st
      = ([], Client.UnsupportedMediaTypeError)).
Proof.
  split.
  - intros req f i Hi Hne Hf Hr.
    eapply ServerFacts.route_returns.
    + rewrite Hi. now apply ServerFacts.truthy_nonempty.
    + eauto using ServerFacts.server_content_unsupported.
  - intros st f Hb Hf Hr.
    eapply ClientFacts.run_throws.
    + split; [left; congruence | assumption].
    + eauto using ClientFacts.client_content_unsupported.
Qed.

Lemma unsupported_is_terminal_witness :
  Server.format_route Stub.helpful Stub.ascii Stub.FLASH
    (Stub.zip_request (Some (lit "go")))
  = ([], Server.UnsupportedMediaTypeError)
  /\
  Client.handleFormat Stub.helpful Stub.ascii (Stub.zip_state (lit "go"))
  = ([], Client.UnsupportedMediaTypeError).
Proof.
  pose proof (unsupported_is_terminal Stub.helpful Stub.ascii Stub.ascii
                Stub.FLASH) as [Hs Hc].
  split.
  - apply (Hs (Stub.zip_request (Some (lit "go"))) Stub.zip_file (lit "go"));
      try reflexivity.
    discriminate.
  - exact (Hc (Stub.zip_state (lit "go")) Stub.zip_file
              eq_refl eq_refl eq_refl).
Defined.

(** C7, as stated, fails: for pasted text that is a single space (no
    file, instructions [go]) the server sends a payload to the model and
    the client rejects the input without contacting anyone. *)
Lemma same_requests_counterexample :
  ~ (forall co utf8 text model_name st,
        contacts (fst (Server.format_route co utf8 model_name
                                           (as_request st)))
        = contacts (fst (Client.handleFormat co text st))).
Proof.
  intros H.
  specialize (H Stub.helpful Stub.ascii Stub.ascii Stub.FLASH
                Stub.space_text).
  vm_compute in H. discriminate H.
Qed.

(** C7, amended: for the same input, the server and the client contact the
    same collaborators in the same order with the same bytes and the same
    ordered parts (so they also agree on whether a request is sent to the
    model at all, and on the payload), provided that the instructions, and
    the pasted text when there is no file, are empty or not blank, that
    the type of an inline file contains no comma, and that the two UTF-8
    decoders agree on the bytes of a plain-text file. *)
Theorem same_requests (co : Collaborators)
    (utf8 text : list byte -> jsstring) (model_name : jsstring)
    (st : Client.State) :
  Client.instructions st = [] \/ blank (Client.instructions st) = false ->
  (Client.file st = None ->
   Client.textInput st = [] \/ blank (Client.textInput st) = false) ->
  (forall f, Client.file st = Some f -> inline (mimetype f) = true ->
             comma_free (mimetype f) = true) ->
  (forall f, Client.file st = Some f -> mimetype f = TEXT_PLAIN ->
             utf8 (buffer f) = text (buffer f)) ->
  contacts (fst (Server.format_route co utf8 model_name (as_request st)))
  = contacts (fst (Client.handleFormat co text st))
  /\ sent (fst (Server.format_route co utf8 model_name (as_request st)))
     = sent (fst (Client.handleFormat co text st)).
Proof.
  intros Hi Ht Hcomma Hutf.
  apply RunFacts.same_contacts.
  assert (Hr : Server.instructions (as_request st)
               = Some (Client.instructions st)) by reflexivity.
  assert (Hfile : Server.file (as_request st) = Client.file st)
    by reflexivity.
  destruct Hi as [Hi | Hi].
  { (* no instructions: both stop at a guard *)
    rewrite ServerFacts.route_no_instructions by (now rewrite Hr, Hi).
    destruct (Client.file st) as [f|] eqn:Hf.
    - rewrite ClientFacts.run_no_instructions;
        [reflexivity | left; congruence | now rewrite Hi].
    - destruct (blank (Client.textInput st)) eqn:Hb.
      + now rewrite ClientFacts.run_no_content.
      + rewrite ClientFacts.run_no_instructions;
          [reflexivity | now right | now rewrite Hi]. }
  assert (Hne : Client.instructions st <> [])
    by (intros E; rewrite E in Hi; discriminate).
  assert (Htruthy : truthy (Server.instructions (as_request st)) = true)
    by (rewrite Hr; now apply ServerFacts.truthy_nonempty).
  destruct (Client.file st) as [f|] eqn:Hf.
  - assert (Hg : passes_guards st)
      by (split; [left; congruence | assumption]).
    destruct (recognized (mimetype f)) eqn:Hrec.
    + apply ServerFacts.recognized_cases in Hrec
        as [Hin | [[Hin Hd] | (Hin & Hd & Hp)]].
      * erewrite ServerFacts.route_pushes
          by eauto using ServerFacts.server_content_inline.
        erewrite ClientFacts.run_pushes
          by eauto using ClientFacts.client_content_inline.
        rewrite ClientFacts.fileToBase64_comma_free by auto.
        reflexivity.
      * pose proof (ServerFacts.server_content_docx co utf8 (as_request st) f
                      Hfile Hd) as Hs.
        pose proof (ClientFacts.client_content_docx co text st f Hf Hd) as Hc.
        destruct (extractRawText co (buffer f)) as [e|value].
        -- erewrite ServerFacts.route_throws by eauto.
           erewrite ClientFacts.run_throws by eauto.
           reflexivity.
        -- erewrite ServerFacts.route_pushes by eauto.
           erewrite ClientFacts.run_pushes by eauto.
           reflexivity.
      * erewrite ServerFacts.route_pushes
          by eauto using ServerFacts.server_content_text_file.
        erewrite ClientFacts.run_pushes
          by eauto using ClientFacts.client_content_text_file.
        rewrite (Hutf f eq_refl Hp). reflexivity.
    + erewrite ServerFacts.route_returns
        by eauto using ServerFacts.server_content_unsupported.
      erewrite ClientFacts.run_throws
        by eauto using ClientFacts.client_content_unsupported.
      reflexivity.
  - destruct (Ht eq_refl) as [He | Hb].
    + erewrite ServerFacts.route_returns;
        [| assumption
         | apply ServerFacts.server_content_missing;
           [assumption | cbn; now rewrite He]].
      rewrite ClientFacts.run_no_content;
        [reflexivity | assumption | now rewrite He].
    + destruct (Client.textInput st) as [|c s] eqn:Et; [discriminate|].
      erewrite ServerFacts.route_pushes;
        [| eassumption | assumption
         | apply ServerFacts.server_content_pasted;
           [assumption | cbn; now rewrite Et]].
      erewrite ClientFacts.run_pushes;
        [| split; [right; now rewrite Et | assumption]
         | now apply ClientFacts.client_content_pasted].
      rewrite Et. reflexivity.
Qed.

Lemma same_requests_witness :
  sent (fst (Server.format_route Stub.helpful Stub.ascii Stub.FLASH
                                 (as_request Stub.pasted_state)))
  = sent (fst (Client.handleFormat Stub.helpful Stub.ascii
                                   Stub.pasted_state))
  /\
  sent (fst (Server.format_route Stub.helpful Stub.ascii Stub.FLASH
                                 (as_request Stub.png_state)))
  = sent (fst (Client.handleFormat Stub.helpful Stub.ascii Stub.png_state)).
Proof.
  split.
  - refine (proj2 (same_requests Stub.helpful Stub.ascii Stub.ascii
                     Stub.FLASH Stub.pasted_state _ _ _ _)).
    + right. reflexivity.
    + intros _. right. reflexivity.
    + intros f Hf. discriminate Hf.
    + intros f Hf. discriminate Hf.
  - refine (proj2 (same_requests Stub.helpful Stub.ascii Stub.ascii
                     Stub.FLASH Stub.png_state _ _ _ _)).
    + right. reflexivity.
    + intros Hf. discriminate Hf.
    + intros f Hf _. injection Hf as <-. reflexivity.
    + intros f _ _. reflexivity.
Defined.

(** C8: for a word-processing document whose extraction returns the empty
    string, materialization succeeds with the text part that is the bare
    label [DOCUMENT CONTENT:\n]; in every run in which the extraction
    collaborator has been called, that part is sent to the model after the
    instructions, and the answer is decided by the model's response alone:
    only an empty (or failed) response makes the request fail. *)
Theorem empty_extraction_is_content (co : Collaborators)
    (utf8 text : list byte -> jsstring) (model_name : jsstring) (f : File) :
  mimetype f = DOCX ->
  extractRawText co (buffer f) = inr [] ->
  (forall req,
      Server.file req = Some f ->
      Server.content_part co utf8 req []
      = ([Extract (buffer f)], inr (inr (TextPart DOCUMENT_CONTENT)))
      /\ (In (Extract (buffer f))
             (fst (Server.format_route co utf8 model_name req)) ->
          exists i,
            Server.instructions req = Some i
            /\ Server.format_route co utf8 model_name req
               = ([Extract (buffer f);
                   Generate (server_request model_name i
                                            (TextPart DOCUMENT_CONTENT))],
                  server_verdict
                    (generateContent co
                       (server_request model_name i
                                       (TextPart DOCUMENT_CONTENT))))))
  /\
  (forall st,
      Client.file st = Some f ->
      Client.content_part co text st []
      = ([Extract (buffer f)], inr (TextPart DOCUMENT_CONTENT))
      /\ (In (Extract (buffer f)) (fst (Client.handleFormat co text st)) ->
          Client.handleFormat co text st
          = ([Extract (buffer f);
              Generate (client_request (Client.instructions st)
                                       (TextPart DOCUMENT_CONTENT))],
             client_verdict
               (generateContent co
                  (client_request (Client.instructions st)
                                  (TextPart DOCUMENT_CONTENT)))))).
Proof.
  intros Hd Hx. split.
  - intros req Hf.
    pose proof (ServerFacts.server_content_docx co utf8 req f Hf Hd) as Hc.
    rewrite Hx, app_nil_r in Hc. split; [exact Hc|].
    destruct (truthy (Server.instructions req)) eqn:Hi.
    + intros _. destruct (ServerFacts.truthy_Some _ Hi) as (c & s & Ei).
      exists (c :: s). split; [assumption|].
      assert (Hne : c :: s <> []) by discriminate.
      now rewrite (ServerFacts.route_pushes co utf8 model_name req _ _ _
                     Ei Hne Hc).
    + rewrite ServerFacts.route_no_instructions by assumption.
      intros [].
  - intros st Hf.
    pose proof (ClientFacts.client_content_docx co text st f Hf Hd) as Hc.
    rewrite Hx, app_nil_r in Hc. split; [exact Hc|].
    assert (Hp : Client.file st <> None
                 \/ blank (Client.textInput st) = false)
      by (left; congruence).
    destruct (blank (Client.instructions st)) eqn:Hb.
    + rewrite ClientFacts.run_no_instructions by assumption.
      intros [].
    + intros _.
      assert (Hg : passes_guards st) by (split; assumption).
      now rewrite (ClientFacts.run_pushes co text st _ _ Hg Hc).
Qed.

Lemma empty_extraction_is_content_witness :
  (exists i,
      Server.instructions Stub.docx_request = Some i
      /\ Server.format_route Stub.empty_docx Stub.ascii Stub.FLASH
           Stub.docx_request
         = ([Extract Stub.bytes_hi;
             Generate (server_request Stub.FLASH i
                                      (TextPart DOCUMENT_CONTENT))],
            server_verdict
              (generateContent Stub.empty_docx
                 (server_request Stub.FLASH i (TextPart DOCUMENT_CONTENT)))))
  /\
  Client.handleFormat Stub.empty_docx Stub.ascii Stub.docx_state
  = ([Extract Stub.bytes_hi;
      Generate (client_request (lit "go") (TextPart DOCUMENT_CONTENT))],
     Client.Formatted (lit "OK")).
Proof.
  pose proof (empty_extraction_is_content Stub.empty_docx Stub.ascii
                Stub.ascii Stub.FLASH Stub.docx_file eq_refl eq_refl)
    as [Hs Hc].
  split.
  - apply (proj2 (Hs Stub.docx_request eq_refl)).
    left. reflexivity.
  - apply (proj2 (Hc Stub.docx_state eq_refl)).
    left. reflexivity.
Defined.

(** C9: once the model has been called, the answer succeeds if and only if
    the model's output is a non-empty string, and then the formatted
    content is that output itself; an empty or absent output is answered
    with the empty-response error. *)
Theorem response_validation (co : Collaborators)
    (utf8 text : list byte -> jsstring) (model_name : jsstring) :
  (forall req r,
      In (Generate r) (fst (Server.format_route co utf8 model_name req)) ->
      (forall s,
          snd (Server.format_route co utf8 model_name req)
          = Server.FormattedJson s
          <-> generateContent co r = inr (Some s) /\ s <> [])
      /\ (generateContent co r = inr None
           \/ generateContent co r = inr (Some []) ->
          snd (Server.format_route co utf8 model_name req)
          = Server.EmptyModelResponseError))
  /\
  (forall st r,
      In (Generate r) (fst (Client.handleFormat co text st)) ->
      (forall s,
          snd (Client.handleFormat co text st) = Client.Formatted s
          <-> generateContent co r = inr (Some s) /\ s <> [])
      /\ (generateContent co r = inr None
           \/ generateContent co r = inr (Some []) ->
          snd (Client.handleFormat co text st)
          = Client.EmptyModelResponseError)).
Proof.
  split.
  - intros req r.
    destruct (RunFacts.server_run co utf8 model_name req)
      as [error | f e Hf He | i before part Hi Hne Hb Hc]; simpl.
    + intros [].
    + intros [H|[]]; discriminate H.
    + intros H. apply RunFacts.generate_last in H; [subst r | assumption].
      split.
      * intros s. apply RunFacts.server_verdict_formatted.
      * intros [-> | ->]; reflexivity.
  - intros st r.
    destruct (RunFacts.client_run co text st)
      as [message | f e Hf He | before part Hi Hb Hc]; simpl.
    + intros [].
    + intros [H|[]]; discriminate H.
    + intros H. apply RunFacts.generate_last in H; [subst r | assumption].
      split.
      * intros s. apply RunFacts.client_verdict_formatted.
      * intros [-> | ->]; reflexivity.
Qed.

Lemma response_validation_witness :
  (snd (Server.format_route Stub.helpful Stub.ascii Stub.FLASH
                            Stub.pasted_request)
   = Server.FormattedJson (lit "OK")
   /\ snd (Server.format_route Stub.silent Stub.ascii Stub.FLASH
                               Stub.pasted_request)
      = Server.EmptyModelResponseError)
  /\
  (snd (Client.handleFormat Stub.helpful Stub.ascii Stub.pasted_state)
   = Client.Formatted (lit "OK")
   /\ snd (Client.handleFormat Stub.silent Stub.ascii Stub.pasted_state)
      = Client.EmptyModelResponseError).
Proof.
  split; split.
  - apply (proj1 (response_validation Stub.helpful Stub.ascii Stub.ascii
                    Stub.FLASH)
             Stub.pasted_request
             (server_request Stub.FLASH (lit "make it uppercase")
                (TextPart (DOCUMENT_CONTENT ++ lit "hello world")))).
    + left. reflexivity.
    + split; [reflexivity | discriminate].
  - apply (proj1 (response_validation Stub.silent Stub.ascii Stub.ascii
                    Stub.FLASH)
             Stub.pasted_request
             (server_request Stub.FLASH (lit "make it uppercase")
                (TextPart (DOCUMENT_CONTENT ++ lit "hello world")))).
    + left. reflexivity.
    + right. reflexivity.
  - apply (proj2 (response_validation Stub.helpful Stub.ascii Stub.ascii
                    Stub.FLASH)
             Stub.pasted_state
             (client_request (lit "make it uppercase")
                (TextPart (DOCUMENT_CONTENT ++ lit "hello world")))).
    + left. reflexivity.
    + split; [reflexivity | discriminate].
  - apply (proj2 (response_validation Stub.silent Stub.ascii Stub.ascii
                    Stub.FLASH)
             Stub.pasted_state
             (client_request (lit "make it uppercase")
                (TextPart (DOCUMENT_CONTENT ++ lit "hello world")))).
    + left. reflexivity.
    + right. reflexivity.
Defined.

(** C10, as stated, fails: an empty pasted string without a file and
    without instructions is answered with the missing-instructions error,
    not with the missing-content error. *)
Lemma empty_text_counterexample :
  ~ (forall co utf8 model_name req,
        Server.file req = None -> Server.content req = Some [] ->
        Server.format_route co utf8 model_name req
        = ([], Server.MissingContentError)).
Proof.
  intros H.
  specialize (H Stub.helpful Stub.ascii Stub.FLASH (Stub.empty_text None)
                eq_refl eq_refl).
  vm_compute in H. discriminate H.
Qed.

(** C10, amended: on the server, a request with no file and the empty
    string as pasted text is treated exactly as the request without the
    pasted text, and, with instructions present, it is answered with the
    missing-content error, no collaborator contacted. *)
Theorem empty_text_is_no_content (co : Collaborators)
    (utf8 : list byte -> jsstring) (model_name : jsstring)
    (req : Server.Request) :
  Server.file req = None -> Server.content req = Some [] ->
  Server.format_route co utf8 model_name req
  = Server.format_route co utf8 model_name
      (Server.mkRequest None (Server.instructions req) None)
  /\ forall i,
      Server.instructions req = Some i -> i <> [] ->
      Server.format_route co utf8 model_name req
      = ([], Server.MissingContentError).
Proof.
  intros Hf Hc. split.
  - unfold Server.format_route, Server.handler, Server.content_part.
    cbn [Server.file Server.content Server.instructions].
    now rewrite Hf, Hc.
  - intros i Hi Hne. eapply ServerFacts.route_returns.
    + rewrite Hi. now apply ServerFacts.truthy_nonempty.
    + apply ServerFacts.server_content_missing; [assumption | now rewrite Hc].
Qed.

Lemma empty_text_is_no_content_witness :
  Server.format_route Stub.helpful Stub.ascii Stub.FLASH
    (Stub.empty_text (Some (lit "go")))
  = ([], Server.MissingContentError).
Proof.
  apply (proj2 (empty_text_is_no_content Stub.helpful Stub.ascii Stub.FLASH
                  (Stub.empty_text (Some (lit "go"))) eq_refl eq_refl)
           (lit "go") eq_refl).
  discriminate.
Defined.


(* ================================================================== *)
(** ** Every request falls under one line of the tables *)
(* ================================================================== *)

Module TableFacts.
Import JS Core Spec Table JSFacts.

Section AllCases.
Variable co : Collaborators.
Variable utf8 text : list byte -> jsstring.
Variable model_name : jsstring.

Lemma server_table (req : Server.Request) :
  ServerCase co utf8 model_name req.
Proof.
  destruct (truthy (Server.instructions req)) eqn:Hi.
  2:{ apply ServerNoInstructions; [assumption|].
      now apply ServerFacts.route_no_instructions. }
  destruct (ServerFacts.truthy_Some _ Hi) as (c & s & Ei).
  assert (Hne : c :: s <> []) by discriminate.
  destruct (Server.file req) as [f|] eqn:Hf.
  - destruct (recognized (mimetype f)) eqn:Hr.
    + apply ServerFacts.recognized_cases in Hr
        as [Hin | [[Hin Hd] | (Hin & Hd & Ht)]].
      * eapply ServerInline; eauto.
        eapply ServerFacts.route_pushes;
          eauto using ServerFacts.server_content_inline.
      * pose proof (ServerFacts.server_content_docx co utf8 req f Hf Hd)
          as Hc.
        destruct (extractRawText co (buffer f)) as [e|value] eqn:Hx.
        -- eapply ServerDocxFailed; eauto.
           eapply ServerFacts.route_throws; eauto.
        -- eapply ServerDocx; eauto.
           eapply ServerFacts.route_pushes; eauto.
      * eapply ServerTextFile; eauto.
        eapply ServerFacts.route_pushes;
          eauto using ServerFacts.server_content_text_file.
    + eapply ServerUnsupported; eauto.
      eapply ServerFacts.route_returns;
        eauto using ServerFacts.server_content_unsupported.
  - destruct (truthy (Server.content req)) eqn:Hc.
    + destruct (ServerFacts.truthy_Some _ Hc) as (c' & s' & Ec).
      eapply ServerPasted; eauto; [discriminate|].
      eapply ServerFacts.route_pushes;
        eauto using ServerFacts.server_content_pasted.
    + eapply ServerNoContent; eauto.
      eapply ServerFacts.route_returns;
        eauto using ServerFacts.server_content_missing.
Qed.

Lemma client_table (st : Client.State) : ClientCase co text st.
Proof.
  destruct (Client.file st) as [f|] eqn:Hf.
  - assert (Hc : Client.file st <> None
                 \/ blank (Client.textInput st) = false)
      by (left; congruence).
    destruct (blank (Client.instructions st)) eqn:Hb.
    { apply ClientNoInstructions; try assumption.
      now apply ClientFacts.run_no_instructions. }
    assert (Hg : passes_guards st) by (split; assumption).
    destruct (recognized (mimetype f)) eqn:Hr.
    + apply ServerFacts.recognized_cases in Hr
        as [Hin | [[Hin Hd] | (Hin & Hd & Ht)]].
      * eapply ClientInline; eauto.
        eapply ClientFacts.run_pushes;
          eauto using ClientFacts.client_content_inline.
      * pose proof (ClientFacts.client_content_docx co text st f Hf Hd)
          as Hp.
        destruct (extractRawText co (buffer f)) as [e|value] eqn:Hx.
        -- eapply ClientDocxFailed; eauto.
           eapply ClientFacts.run_throws; eauto.
        -- eapply ClientDocx; eauto.
           eapply ClientFacts.run_pushes; eauto.
      * eapply ClientTextFile; eauto.
        eapply ClientFacts.run_pushes;
          eauto using ClientFacts.client_content_text_file.
    + eapply ClientUnsupported; eauto.
      eapply ClientFacts.run_throws;
        eauto using ClientFacts.client_content_unsupported.
  - destruct (blank (Client.textInput st)) eqn:Ht.
    { apply ClientNoContent; try assumption.
      now apply ClientFacts.run_no_content. }
    destruct (blank (Client.instructions st)) eqn:Hb.
    { apply ClientNoInstructions; auto.
      now apply ClientFacts.run_no_instructions; auto. }
    apply ClientPasted; auto.
    eapply ClientFacts.run_pushes;
      [split; auto | now apply ClientFacts.client_content_pasted].
Qed.

(** The recognized types, read backwards. *)
Lemma inline_recognized (m : jsstring) :
  inline m = true -> recognized m = true.
Proof. intros H. unfold recognized. now rewrite H. Qed.

Lemma docx_not_inline : inline DOCX = false.
Proof. reflexivity. Qed.

Lemma text_plain_not_inline : inline TEXT_PLAIN = false.
Proof. reflexivity. Qed.

Lemma docx_recognized : recognized DOCX = true.
Proof. reflexivity. Qed.

Lemma text_plain_recognized : recognized TEXT_PLAIN = true.
Proof. reflexivity. Qed.

Lemma text_plain_not_docx : TEXT_PLAIN <> DOCX.
Proof. discriminate. Qed.
End AllCases.

End TableFacts.

(* ================================================================== *)
(** ** Further properties of the two pipelines *)
(* ================================================================== *)

Import JSFacts Table.

(** Closes a case of a table that its own conditions exclude. *)
Ltac excluded :=
  repeat match goal with
    | H : _ \/ _ |- _ => destruct H
    | H : exists _, _ |- _ => destruct H
    | H : _ /\ _ |- _ => destruct H
    | H : ?i <> [], E : Server.instructions _ = Some ?i |- _ =>
        apply ServerFacts.truthy_nonempty in H; rewrite <- E in H; clear E
    | H : ?c <> [], E : Server.content _ = Some ?c |- _ =>
        apply ServerFacts.truthy_nonempty in H; rewrite <- E in H; clear E
    | H : inline ?m = true |- _ =>
        lazymatch goal with
        | _ : recognized m = true |- _ => fail
        | _ => pose proof (TableFacts.inline_recognized _ H)
        end
    end;
  pose proof TableFacts.text_plain_not_docx;
  pose proof TableFacts.docx_recognized;
  pose proof TableFacts.text_plain_recognized;
  pose proof TableFacts.docx_not_inline;
  pose proof TableFacts.text_plain_not_inline;
  try discriminate; try congruence.

(** X1: on the server, an inline file (PDF or image) with instructions
    present gives exactly one call, to the model, whose second part
    carries the file's MIME type and data that Base64-decodes to the
    file's bytes. *)
Theorem server_inline_payload (co : Collaborators)
    (utf8 : list byte -> jsstring) (model_name : jsstring)
    (req : Server.Request) (i : jsstring) (f : File) :
  Server.instructions req = Some i -> i <> [] ->
  Server.file req = Some f -> inline (mimetype f) = true ->
  exists data,
    Base64.decode data = Some (buffer f)
    /\ Server.format_route co utf8 model_name req
       = server_sends co model_name [] i
           (InlinePart (mimetype f) (Some data)).
Proof.
  intros Hi Hne Hf Hin. exists (Base64.encode (buffer f)). split.
  - apply Base64Facts.decode_encode.
  - eapply ServerFacts.route_pushes;
      eauto using ServerFacts.server_content_inline.
Qed.

Lemma server_inline_payload_witness :
  exists data,
    Base64.decode data = Some Stub.bytes_hi
    /\ Server.format_route Stub.helpful Stub.ascii Stub.FLASH
         Stub.image_and_text
       = server_sends Stub.helpful Stub.FLASH [] (lit "go")
           (InlinePart Stub.PNG (Some data)).
Proof.
  apply (server_inline_payload Stub.helpful Stub.ascii Stub.FLASH
           Stub.image_and_text (lit "go") Stub.png_file);
    try reflexivity.
  discriminate.
Defined.

(** X2: on the client, an inline file whose type contains no comma, with
    instructions that are not blank, gives exactly one call, to the
    model, whose second part carries the file's type and data that
    Base64-decodes to the file's bytes. *)
Theorem client_inline_payload (co : Collaborators)
    (text : list byte -> jsstring) (st : Client.State) (f : File) :
  blank (Client.instructions st) = false ->
  Client.file st = Some f -> inline (mimetype f) = true ->
  comma_free (mimetype f) = true ->
  exists data,
    Base64.decode data = Some (buffer f)
    /\ Client.handleFormat co text st
       = client_sends co [] (Client.instructions st)
           (InlinePart (mimetype f) (Some data)).
Proof.
  intros Hb Hf Hin Hc. exists (Base64.encode (buffer f)). split.
  - apply Base64Facts.decode_encode.
  - rewrite <- (ClientFacts.fileToBase64_comma_free f Hc).
    eapply ClientFacts.run_pushes.
    + split; [left; congruence | assumption].
    + now apply ClientFacts.client_content_inline.
Qed.

Lemma client_inline_payload_witness :
  exists data,
    Base64.decode data = Some Stub.bytes_hi
    /\ Client.handleFormat Stub.helpful Stub.ascii Stub.png_state
       = client_sends Stub.helpful [] (lit "extract text")
           (InlinePart Stub.PNG (Some data)).
Proof.
  exact (client_inline_payload Stub.helpful Stub.ascii Stub.png_state
           Stub.png_file eq_refl eq_refl eq_refl eq_refl).
Defined.

(** [split] never returns the empty array, and has a second piece as soon
    as the separator occurs. *)
Lemma split_not_empty (sep : N) (s : jsstring) : split sep s <> [].
Proof.
  destruct s as [|c r]; simpl; [discriminate|].
  destruct (c =? sep); [discriminate|].
  destruct (split sep r); discriminate.
Qed.

Lemma split_second (sep : N) (a b : jsstring) :
  exists piece, nth_error (split sep (a ++ sep :: b)) 1 = Some piece.
Proof.
  induction a as [|c r IH]; simpl.
  - rewrite N.eqb_refl. simpl.
    destruct (split sep b) as [|p ps] eqn:E.
    + now apply split_not_empty in E.
    + now exists p.
  - destruct (c =? sep).
    + simpl. destruct (split sep (r ++ sep :: b)) as [|p ps] eqn:E.
      * now apply split_not_empty in E.
      * now exists p.
    + destruct IH as [piece IH].
      destruct (split sep (r ++ sep :: b)) as [|p ps]; [discriminate|].
      exists piece. exact IH.
Qed.

(** X3: [fileToBase64] never resolves to [undefined]: whatever the type
    and the bytes of the file, the data URL has a second piece; so the
    inline part the client sends always has data. *)
Theorem fileToBase64_defined (f : File) :
  exists data, Client.fileToBase64 f = Some data.
Proof.
  unfold Client.fileToBase64, Client.readAsDataURL.
  change (lit ";base64,") with (lit ";base64" ++ [Client.COMMA]).
  replace (lit "data:" ++ mimetype f ++ (lit ";base64" ++ [Client.COMMA])
           ++ Base64.encode (buffer f))
    with ((lit "data:" ++ mimetype f ++ lit ";base64")
          ++ Client.COMMA :: Base64.encode (buffer f))
    by (now rewrite <- !app_assoc).
  apply split_second.
Qed.


(** X5: the client contacts no collaborator exactly when there is neither
    a file nor pasted text that is not blank, or the instructions are
    blank, or the file's type is not recognized. *)
Theorem client_contacts_nobody_iff (co : Collaborators)
    (text : list byte -> jsstring) (st : Client.State) :
  fst (Client.handleFormat co text st) = []
  <-> (Client.file st = None /\ blank (Client.textInput st) = true)
      \/ blank (Client.instructions st) = true
      \/ (exists f, Client.file st = Some f
                    /\ recognized (mimetype f) = false).
Proof.
  destruct (TableFacts.client_table co text st)
    as [Hf Ht Hr | Hc Hb Hr | f Hb Hf Hu Hr | f Hb Hf Hin Hr
        | f e Hb Hf Hd Hx Hr | f v Hb Hf Hd Hx Hr | f Hb Hf Ht Hr
        | Hb Hf Ht Hr];
    rewrite Hr; simpl; split; intros H;
    try reflexivity; try discriminate H; eauto; excluded.
Qed.



(** X7: the extraction collaborator is called exactly for a
    word-processing document submitted with instructions (non-empty on the
    server, not blank on the client), and then with the bytes of that
    file. *)
Theorem extraction_called_iff (co : Collaborators)
    (utf8 text : list byte -> jsstring) (model_name : jsstring)
    (bytes : list byte) :
  (forall req,
      In (Extract bytes) (fst (Server.format_route co utf8 model_name req))
      <-> truthy (Server.instructions req) = true
          /\ exists f, Server.file req = Some f /\ mimetype f = DOCX
                       /\ bytes = buffer f)
  /\
  (forall st,
      In (Extract bytes) (fst (Client.handleFormat co text st))
      <-> blank (Client.instructions st) = false
          /\ exists f, Client.file st = Some f /\ mimetype f = DOCX
                       /\ bytes = buffer f).
Proof.
  split.
  - intros req.
    destruct (TableFacts.server_table co utf8 model_name req)
      as [Hi Hr | i f Hi Hne Hf Hu Hr | i Hi Hne Hf Hc Hr
          | i f Hi Hne Hf Hin Hr | i f e Hi Hne Hf Hd Hx Hr
          | i f v Hi Hne Hf Hd Hx Hr | i f Hi Hne Hf Ht Hr
          | i c Hi Hne Hf Hc Hcne Hr];
      rewrite Hr; simpl; split; intros H;
      try (destruct H as [H|H]; try discriminate H; try (now destruct H));
      try (now destruct H);
      try (inversion H; subst; split;
           [rewrite Hi; now apply ServerFacts.truthy_nonempty
           | now exists f]);
      try (destruct H as [_ [f' (Hf' & Hd' & ->)]];
           left; congruence);
      excluded.
  - intros st.
    destruct (TableFacts.client_table co text st)
      as [Hf Ht Hr | Hc Hb Hr | f Hb Hf Hu Hr | f Hb Hf Hin Hr
          | f e Hb Hf Hd Hx Hr | f v Hb Hf Hd Hx Hr | f Hb Hf Ht Hr
          | Hb Hf Ht Hr];
      rewrite Hr; simpl; split; intros H;
      try (destruct H as [H|H]; try discriminate H; try (now destruct H));
      try (now destruct H);
      try (inversion H; subst; split; [assumption | now exists f]);
      try (destruct H as [_ [f' (Hf' & Hd' & ->)]];
           left; congruence);
      excluded.
Qed.

Lemma extraction_called_iff_witness :
  In (Extract Stub.bytes_hi)
     (fst (Server.format_route Stub.empty_docx Stub.ascii Stub.FLASH
                               Stub.docx_request))
  /\ In (Extract Stub.bytes_hi)
        (fst (Client.handleFormat Stub.empty_docx Stub.ascii
                                  Stub.docx_state)).
Proof.
  pose proof (extraction_called_iff Stub.empty_docx Stub.ascii Stub.ascii
                Stub.FLASH Stub.bytes_hi) as [Hs Hc].
  split.
  - apply (proj2 (Hs Stub.docx_request)).
    split; [reflexivity|]. exists Stub.docx_file. auto.
  - apply (proj2 (Hc Stub.docx_state)).
    split; [reflexivity|]. exists Stub.docx_file. auto.
Defined.

(** X8: a run makes at most one call to each collaborator, and the
    extraction, when there is one, comes before the call to the model:
    the trace is empty, or one call to the model, or one extraction, or
    one extraction followed by one call to the model. *)
Theorem at_most_two_calls (co : Collaborators)
    (utf8 text : list byte -> jsstring) (model_name : jsstring) :
  (forall req,
      let log := fst (Server.format_route co utf8 model_name req) in
      log = [] \/ (exists r, log = [Generate r])
      \/ (exists b, log = [Extract b])
      \/ (exists b r, log = [Extract b; Generate r]))
  /\
  (forall st,
      let log := fst (Client.handleFormat co text st) in
      log = [] \/ (exists r, log = [Generate r])
      \/ (exists b, log = [Extract b])
      \/ (exists b r, log = [Extract b; Generate r])).
Proof.
  split.
  - intros req.
    destruct (TableFacts.server_table co utf8 model_name req)
      as [Hi Hr | i f Hi Hne Hf Hu Hr | i Hi Hne Hf Hc Hr
          | i f Hi Hne Hf Hin Hr | i f e Hi Hne Hf Hd Hx Hr
          | i f v Hi Hne Hf Hd Hx Hr | i f Hi Hne Hf Ht Hr
          | i c Hi Hne Hf Hc Hcne Hr];
      rewrite Hr; unfold server_sends; cbn [fst app]; eauto 6.
  - intros st.
    destruct (TableFacts.client_table co text st)
      as [Hf Ht Hr | Hc Hb Hr | f Hb Hf Hu Hr | f Hb Hf Hin Hr
          | f e Hb Hf Hd Hx Hr | f v Hb Hf Hd Hx Hr | f Hb Hf Ht Hr
          | Hb Hf Ht Hr];
      rewrite Hr; unfold client_sends; cbn [fst app]; eauto 6.
Qed.

(** X9: when the extraction of a word-processing document throws, the
    request fails with the thrown message and the model is not called:
    the server answers 500 with the message as details, the client shows
    the message (or [Failed to format document.] when it is empty). *)
Theorem extraction_failure_is_terminal (co : Collaborators)
    (utf8 text : list byte -> jsstring) (model_name : jsstring)
    (f : File) (e : Exn) :
  mimetype f = DOCX -> extractRawText co (buffer f) = inl e ->
  (forall req i,
      Server.instructions req = Some i -> i <> [] ->
      Server.file req = Some f ->
      Server.format_route co utf8 model_name req
      = ([Extract (buffer f)],
         Server.ErrorJson 500 (lit "Internal Processing Error")
                          (Some (message e))))
  /\
  (forall st,
      blank (Client.instructions st) = false ->
      Client.file st = Some f ->
      Client.handleFormat co text st
      = ([Extract (buffer f)],
         Client.ErrorShown
           (match message e with
            | [] => lit "Failed to format document."
            | _ :: _ => message e
            end))).
Proof.
  intros Hd Hx. split.
  - intros req i Hi Hne Hf.
    pose proof (ServerFacts.server_content_docx co utf8 req f Hf Hd) as Hc.
    rewrite Hx in Hc.
    eapply ServerFacts.route_throws; [|exact Hc].
    rewrite Hi. now apply ServerFacts.truthy_nonempty.
  - intros st Hb Hf.
    pose proof (ClientFacts.client_content_docx co text st f Hf Hd) as Hc.
    rewrite Hx in Hc.
    assert (Hg : passes_guards st)
      by (split; [left; congruence | assumption]).
    rewrite (ClientFacts.run_throws co text st _ e Hg Hc).
    unfold Client.Caught. now destruct (message e).
Qed.

Lemma extraction_failure_is_terminal_witness :
  Server.format_route Scenario.broken_docx Stub.ascii Stub.FLASH
    Stub.docx_request
  = ([Extract Stub.bytes_hi],
     Server.ErrorJson 500 (lit "Internal Processing Error")
                      (Some (lit "bad zip")))
  /\
  Client.handleFormat Scenario.broken_docx Stub.ascii Stub.docx_state
  = ([Extract Stub.bytes_hi], Client.ErrorShown (lit "bad zip")).
Proof.
  pose proof (extraction_failure_is_terminal Scenario.broken_docx Stub.ascii
                Stub.ascii Stub.FLASH Stub.docx_file (Error (lit "bad zip"))
                eq_refl eq_refl) as [Hs Hc].
  split.
  - apply (Hs Stub.docx_request (lit "go")); try reflexivity. discriminate.
  - exact (Hc Stub.docx_state eq_refl eq_refl).
Defined.

(** X10: when the call to the model throws, the request fails with the
    thrown message: the server answers 500 with the message as details,
    the client shows the message (or [Failed to format document.] when it
    is empty). *)
Theorem model_failure_is_reported (co : Collaborators)
    (utf8 text : list byte -> jsstring) (model_name : jsstring)
    (r : ModelRequest) (e : Exn) :
  generateContent co r = inl e ->
  (forall req,
      In (Generate r) (fst (Server.format_route co utf8 model_name req)) ->
      snd (Server.format_route co utf8 model_name req)
      = Server.ErrorJson 500 (lit "Internal Processing Error")
                         (Some (message e)))
  /\
  (forall st,
      In (Generate r) (fst (Client.handleFormat co text st)) ->
      snd (Client.handleFormat co text st)
      = Client.ErrorShown
          (match message e with
           | [] => lit "Failed to format document."
           | _ :: _ => message e
           end)).
Proof.
  intros He. split.
  - intros req.
    destruct (RunFacts.server_run co utf8 model_name req)
      as [err | f e' Hf He' | i before part Hi Hne Hb Hc]; simpl.
    + intros [].
    + intros [H|[]]; discriminate H.
    + intros H. apply RunFacts.generate_last in H; [subst r | assumption].
      now rewrite He.
  - intros st.
    destruct (RunFacts.client_run co text st)
      as [msg | f e' Hf He' | before part Hi Hb Hc]; simpl.
    + intros [].
    + intros [H|[]]; discriminate H.
    + intros H. apply RunFacts.generate_last in H; [subst r | assumption].
      rewrite He. simpl. unfold Client.Caught. now destruct (message e).
Qed.

Lemma model_failure_is_reported_witness :
  snd (Server.format_route Scenario.offline Stub.ascii Stub.FLASH
                           Stub.pasted_request)
  = Server.ErrorJson 500 (lit "Internal Processing Error")
                     (Some (lit "quota"))
  /\
  snd (Client.handleFormat Scenario.offline Stub.ascii Stub.pasted_state)
  = Client.ErrorShown (lit "quota").
Proof.
  split.
  - apply (proj1 (model_failure_is_reported Scenario.offline Stub.ascii
                    Stub.ascii Stub.FLASH
                    (server_request Stub.FLASH (lit "make it uppercase")
                       (TextPart (DOCUMENT_CONTENT ++ lit "hello world")))
                    (Error (lit "quota")) eq_refl)).
    left. reflexivity.
  - apply (proj2 (model_failure_is_reported Scenario.offline Stub.ascii
                    Stub.ascii Stub.FLASH
                    (client_request (lit "make it uppercase")
                       (TextPart (DOCUMENT_CONTENT ++ lit "hello world")))
                    (Error (lit "quota")) eq_refl)).
    left. reflexivity.
Defined.

(** X11: every request to the model carries the same system instruction
    and the same model name, whatever the input: the file's
    [SYSTEM_PROMPT] and the model name of the file. *)
Theorem system_instruction_is_constant (co : Collaborators)
    (utf8 text : list byte -> jsstring) (model_name : jsstring)
    (r : ModelRequest) :
  (forall req,
      In (Generate r) (fst (Server.format_route co utf8 model_name req)) ->
      systemInstruction r = Server.SYSTEM_PROMPT /\ model r = model_name)
  /\
  (forall st,
      In (Generate r) (fst (Client.handleFormat co text st)) ->
      systemInstruction r = Client.SYSTEM_PROMPT
      /\ model r = lit "gemini-2.5-flash").
Proof.
  split.
  - intros req.
    destruct (RunFacts.server_run co utf8 model_name req)
      as [err | f e' Hf He' | i before part Hi Hne Hb Hc]; simpl.
    + intros [].
    + intros [H|[]]; discriminate H.
    + intros H. apply RunFacts.generate_last in H; [subst r | assumption].
      split; reflexivity.
  - intros st.
    destruct (RunFacts.client_run co text st)
      as [msg | f e' Hf He' | before part Hi Hb Hc]; simpl.
    + intros [].
    + intros [H|[]]; discriminate H.
    + intros H. apply RunFacts.generate_last in H; [subst r | assumption].
      split; reflexivity.
Qed.

Lemma system_instruction_is_constant_witness :
  (systemInstruction
     (server_request Stub.FLASH (lit "make it uppercase")
        (TextPart (DOCUMENT_CONTENT ++ lit "hello world")))
   = Server.SYSTEM_PROMPT
   /\ model (server_request Stub.FLASH (lit "make it uppercase")
               (TextPart (DOCUMENT_CONTENT ++ lit "hello world")))
      = Stub.FLASH)
  /\
  (systemInstruction
     (client_request (lit "make it uppercase")
        (TextPart (DOCUMENT_CONTENT ++ lit "hello world")))
   = Client.SYSTEM_PROMPT
   /\ model (client_request (lit "make it uppercase")
               (TextPart (DOCUMENT_CONTENT ++ lit "hello world")))
      = lit "gemini-2.5-flash").
Proof.
  split.
  - apply (proj1 (system_instruction_is_constant Stub.helpful Stub.ascii
                    Stub.ascii Stub.FLASH _) Stub.pasted_request).
    left. reflexivity.
  - apply (proj2 (system_instruction_is_constant Stub.helpful Stub.ascii
                    Stub.ascii Stub.FLASH _) Stub.pasted_state).
    left. reflexivity.
Defined.

(** X12: pasted text reaches the model as it was given, under the label
    [DOCUMENT CONTENT:\n] and after the instructions as they were given:
    neither is trimmed, although the client's guards test the trimmed
    strings. *)
Theorem pasted_text_is_sent_verbatim (co : Collaborators)
    (utf8 text : list byte -> jsstring) (model_name : jsstring) :
  (forall req i c,
      Server.instructions req = Some i -> i <> [] ->
      Server.file req = None -> Server.content req = Some c -> c <> [] ->
      Server.format_route co utf8 model_name req
      = server_sends co model_name [] i (TextPart (DOCUMENT_CONTENT ++ c)))
  /\
  (forall st,
      blank (Client.instructions st) = false ->
      Client.file st = None -> blank (Client.textInput st) = false ->
      Client.handleFormat co text st
      = client_sends co [] (Client.instructions st)
          (TextPart (DOCUMENT_CONTENT ++ Client.textInput st))).
Proof.
  split.
  - intros req i c Hi Hne Hf Hc Hcne.
    destruct c as [|x c]; [congruence|].
    eapply ServerFacts.route_pushes;
      eauto using ServerFacts.server_content_pasted.
  - intros st Hb Hf Ht.
    eapply ClientFacts.run_pushes;
      [split; auto | now apply ClientFacts.client_content_pasted].
Qed.

Lemma pasted_text_is_sent_verbatim_witness :
  Server.format_route Stub.helpful Stub.ascii Stub.FLASH
    Scenario.padded_request
  = server_sends Stub.helpful Stub.FLASH [] (lit " go ")
      (TextPart (DOCUMENT_CONTENT ++ lit " a "))
  /\
  Client.handleFormat Stub.helpful Stub.ascii Scenario.padded_state
  = client_sends Stub.helpful [] (lit " go ")
      (TextPart (DOCUMENT_CONTENT ++ lit " a ")).
Proof.
  pose proof (pasted_text_is_sent_verbatim Stub.helpful Stub.ascii
                Stub.ascii Stub.FLASH) as [Hs Hc].
  split.
  - apply (Hs Scenario.padded_request (lit " go ") (lit " a "));
      try reflexivity; discriminate.
  - exact (Hc Scenario.padded_state eq_refl eq_refl eq_refl).
Defined.

(** X13: for a word-processing document whose extraction returns a text,
    the extraction is called first with the bytes of the file, then the
    model with the instructions and the text under the label
    [DOCUMENT CONTENT:\n]. *)
Theorem extracted_text_is_sent (co : Collaborators)
    (utf8 text : list byte -> jsstring) (model_name : jsstring)
    (f : File) (value : jsstring) :
  mimetype f = DOCX -> extractRawText co (buffer f) = inr value ->
  (forall req i,
      Server.instructions req = Some i -> i <> [] ->
      Server.file req = Some f ->
      Server.format_route co utf8 model_name req
      = server_sends co model_name [Extract (buffer f)] i
          (TextPart (DOCUMENT_CONTENT ++ value)))
  /\
  (forall st,
      blank (Client.instructions st) = false ->
      Client.file st = Some f ->
      Client.handleFormat co text st
      = client_sends co [Extract (buffer f)] (Client.instructions st)
          (TextPart (DOCUMENT_CONTENT ++ value))).
Proof.
  intros Hd Hx. split.
  - intros req i Hi Hne Hf.
    pose proof (ServerFacts.server_content_docx co utf8 req f Hf Hd) as Hc.
    rewrite Hx in Hc.
    exact (ServerFacts.route_pushes co utf8 model_name req i _ _ Hi Hne Hc).
  - intros st Hb Hf.
    pose proof (ClientFacts.client_content_docx co text st f Hf Hd) as Hc.
    rewrite Hx in Hc.
    assert (Hg : passes_guards st)
      by (split; [left; congruence | assumption]).
    exact (ClientFacts.run_pushes co text st _ _ Hg Hc).
Qed.

Lemma extracted_text_is_sent_witness :
  Server.format_route Stub.helpful Stub.ascii Stub.FLASH Stub.docx_request
  = server_sends Stub.helpful Stub.FLASH [Extract Stub.bytes_hi] (lit "go")
      (TextPart (DOCUMENT_CONTENT ++ lit "hello"))
  /\
  Client.handleFormat Stub.helpful Stub.ascii Stub.docx_state
  = client_sends Stub.helpful [Extract Stub.bytes_hi] (lit "go")
      (TextPart (DOCUMENT_CONTENT ++ lit "hello")).
Proof.
  pose proof (extracted_text_is_sent Stub.helpful Stub.ascii Stub.ascii
                Stub.FLASH Stub.docx_file (lit "hello") eq_refl eq_refl)
    as [Hs Hc].
  split.
  - apply (Hs Stub.docx_request (lit "go")); try reflexivity. discriminate.
  - exact (Hc Stub.docx_state eq_refl eq_refl).
Defined.

(** X14: a plain-text file is decoded and sent as text under the label
    [DOCUMENT CONTENT:\n], in a single call to the model; the extraction
    collaborator is not involved. *)
Theorem plain_text_file_is_decoded (co : Collaborators)
    (utf8 text : list byte -> jsstring) (model_name : jsstring) (f : File) :
  mimetype f = TEXT_PLAIN ->
  (forall req i,
      Server.instructions req = Some i -> i <> [] ->
      Server.file req = Some f ->
      Server.format_route co utf8 model_name req
      = server_sends co model_name [] i
          (TextPart (DOCUMENT_CONTENT ++ utf8 (buffer f))))
  /\
  (forall st,
      blank (Client.instructions st) = false ->
      Client.file st = Some f ->
      Client.handleFormat co text st
      = client_sends co [] (Client.instructions st)
          (TextPart (DOCUMENT_CONTENT ++ text (buffer f)))).
Proof.
  intros Ht. split.
  - intros req i Hi Hne Hf.
    eapply ServerFacts.route_pushes;
      eauto using ServerFacts.server_content_text_file.
  - intros st Hb Hf.
    eapply ClientFacts.run_pushes.
    + split; [left; congruence | assumption].
    + now apply ClientFacts.client_content_text_file.
Qed.

Lemma plain_text_file_is_decoded_witness :
  Server.format_route Stub.helpful Stub.ascii Stub.FLASH Scenario.txt_request
  = server_sends Stub.helpful Stub.FLASH [] (lit "go")
      (TextPart (DOCUMENT_CONTENT ++ lit "hi"))
  /\
  Client.handleFormat Stub.helpful Stub.ascii Scenario.txt_state
  = client_sends Stub.helpful [] (lit "go")
      (TextPart (DOCUMENT_CONTENT ++ lit "hi")).
Proof.
  pose proof (plain_text_file_is_decoded Stub.helpful Stub.ascii Stub.ascii
                Stub.FLASH Scenario.txt_file eq_refl) as [Hs Hc].
  split.
  - apply (Hs Scenario.txt_request (lit "go")); try reflexivity. discriminate.
  - exact (Hc Scenario.txt_state eq_refl eq_refl).
Defined.

(* ================================================================== *)
(** ** The component *)
(* ================================================================== *)

Module UIFacts.
Import UI.

Section ComponentFacts.
Variable co : Collaborators.
Variable text : list byte -> jsstring.

(** The [try] block ends with an exception or with a non-empty result. *)
Lemma body_ends (st : Client.State) :
  (exists log e, Client.body co text st [] = (log, inl e))
  \/ (exists log s, s <> []
                    /\ Client.body co text st [] = (log, inr (Client.Formatted s))).
Proof.
  unfold Client.body, bind.
  destruct (Client.content_part co text st []) as [log [e|part]].
  - left. now exists log, e.
  - unfold await.
    destruct (generateContent co _) as [e|[[|c s]|]]; simpl.
    + left. do 2 eexists. reflexivity.
    + left. do 2 eexists. reflexivity.
    + right. exists (log ++ [Generate
                               (mkModelRequest (lit "gemini-2.5-flash")
                                  ([TextPart (INSTRUCTIONS
                                              ++ Client.instructions st)]
                                   ++ [part]) Client.SYSTEM_PROMPT)]),
               (c :: s).
      split; [discriminate | reflexivity].
    + left. do 2 eexists. reflexivity.
Qed.

(** The component's [handleFormat] makes the calls of [handleFormat]. *)
Lemma same_calls (ui : Component) :
  fst (handleFormat co text ui)
  = fst (Client.handleFormat co text (state_of ui)).
Proof.
  unfold handleFormat, Client.handleFormat.
  cbn [state_of Client.textInput Client.instructions Client.file].
  destruct (Client.falsy (trim (textInput ui))
            && match file ui with None => true | Some _ => false end);
    [reflexivity|].
  destruct (Client.falsy (trim (instructions ui))); [reflexivity|].
  change (state_of (setFormattedContent []
                      (setError None (setLoading true ui))))
    with (state_of ui).
  destruct (Client.body co text (state_of ui) [])
    as [log [e|[m|s]]]; reflexivity.
Qed.

(** [handleFormat] writes neither the text, nor the instructions, nor the
    file. *)
Lemma handleFormat_keeps_input (ui : Component) :
  state_of (snd (handleFormat co text ui)) = state_of ui.
Proof.
  unfold handleFormat.
  destruct (Client.falsy (trim (textInput ui))
            && match file ui with None => true | Some _ => false end);
    [reflexivity|].
  destruct (Client.falsy (trim (instructions ui))); [reflexivity|].
  change (state_of (setFormattedContent []
                      (setError None (setLoading true ui))))
    with (state_of ui).
  destruct (Client.body co text (state_of ui) [])
    as [log [e|[m|s]]]; reflexivity.
Qed.

Lemma client_calls_at_most_two (st : Client.State) :
  (List.length (fst (Client.handleFormat co text st)) <= 2)%nat.
Proof.
  destruct (TableFacts.client_table co text st)
    as [Hf Ht Hr | Hc Hb Hr | f Hb Hf Hu Hr | f Hb Hf Hin Hr
        | f e Hb Hf Hd Hx Hr | f v Hb Hf Hd Hx Hr | f Hb Hf Ht Hr
        | Hb Hf Ht Hr];
    rewrite Hr; simpl; lia.
Qed.

Lemma step_exclusive (ui : Component) (ev : Event) :
  exclusive ui -> exclusive (snd (step co text ui ev)).
Proof.
  intros H. destruct ev as [files| |value|value| | |]; simpl.
  - destruct files as [[|f rest]|]; simpl; auto. now right.
  - destruct (file ui); [now left | assumption].
  - unfold textarea_disabled. destruct (file ui) eqn:E.
    + assumption.
    + now left.
  - assumption.
  - assumption.
  - assumption.
  - destruct (button_disabled ui); [assumption|].
    pose proof (handleFormat_keeps_input ui) as K.
    unfold exclusive in *.
    apply (f_equal Client.file) in K as Kf.
    apply (f_equal Client.textInput) in K as Kt.
    simpl in Kf, Kt. now rewrite Kf, Kt.
Qed.
End ComponentFacts.

End UIFacts.

Import UI.

Lemma session_snd (co : Collaborators) (text : list byte -> jsstring)
    (ui : Component) (ev : Event) (rest : list Event) :
  snd (session co text ui (ev :: rest))
  = snd (session co text (snd (step co text ui ev)) rest).
Proof.
  simpl. destruct (step co text ui ev) as [log ui']. simpl.
  now destruct (session co text ui' rest).
Qed.

Lemma session_fst (co : Collaborators) (text : list byte -> jsstring)
    (ui : Component) (ev : Event) (rest : list Event) :
  fst (session co text ui (ev :: rest))
  = fst (step co text ui ev)
    ++ fst (session co text (snd (step co text ui ev)) rest).
Proof.
  simpl. destruct (step co text ui ev) as [log ui']. simpl.
  now destruct (session co text ui' rest).
Qed.

(** X15: the component never holds a file and pasted text together:
    selecting a file clears the text, typing clears the file, and no
    other handler writes either, so the exclusion survives every sequence
    of events. *)
Theorem file_and_text_stay_exclusive (co : Collaborators)
    (text : list byte -> jsstring) (events : list Event) (ui : Component) :
  exclusive ui -> exclusive (snd (session co text ui events)).
Proof.
  revert ui. induction events as [|ev rest IH]; intros ui H.
  - exact H.
  - rewrite session_snd. apply IH. now apply UIFacts.step_exclusive.
Qed.

Lemma file_and_text_stay_exclusive_witness :
  exclusive (snd (session Stub.helpful Stub.ascii initial Scenario.clicks)).
Proof.
  apply (file_and_text_stay_exclusive Stub.helpful Stub.ascii
           Scenario.clicks initial).
  left. reflexivity.
Defined.

(** X16: only a click on the format button contacts a collaborator, and a
    click contacts at most two: a session makes at most twice as many
    calls as it has clicks on the button. *)
Theorem calls_need_clicks (co : Collaborators)
    (text : list byte -> jsstring) (events : list Event) (ui : Component) :
  (List.length (fst (session co text ui events))
   <= 2 * format_clicks events)%nat.
Proof.
  revert ui. induction events as [|ev rest IH]; intros ui.
  - simpl. lia.
  - rewrite session_fst, length_app.
    specialize (IH (snd (step co text ui ev))).
    destruct ev; cbn [step fst snd format_clicks List.length] in *; try lia.
    destruct (button_disabled ui).
    + cbn [fst snd List.length] in *. lia.
    + rewrite UIFacts.same_calls.
      pose proof (UIFacts.client_calls_at_most_two co text (state_of ui)).
      lia.
Qed.

(** X17: a run of [handleFormat] that passes the guards ends with
    [loading] cleared and with exactly one of the two: a non-empty result
    and no error, or a non-empty error message and an empty result. *)
Theorem run_shows_result_or_error (co : Collaborators)
    (text : list byte -> jsstring) (ui : Component) :
  passes_guards (state_of ui) ->
  let ui' := snd (handleFormat co text ui) in
  loading ui' = false
  /\ ((error ui' = None /\ formattedContent ui' <> [])
      \/ (formattedContent ui' = []
          /\ exists m, error ui' = Some m /\ m <> [])).
Proof.
  intros [Hc Hb]. unfold handleFormat.
  pose proof (ClientFacts.first_guard (state_of ui) Hc) as G1.
  cbn [state_of Client.textInput Client.file] in G1. rewrite G1.
  pose proof (ClientFacts.falsy_trim (instructions ui)) as G2.
  cbn [state_of Client.instructions] in Hb. rewrite Hb in G2. rewrite G2.
  change (state_of (setFormattedContent []
                      (setError None (setLoading true ui))))
    with (state_of ui).
  destruct (UIFacts.body_ends co text (state_of ui))
    as [(log & e & E) | (log & s & Hs & E)]; rewrite E; cbn.
  - split; [reflexivity|]. right. split; [reflexivity|].
    destruct (message e) as [|c m] eqn:M.
    + eexists. split; [reflexivity | discriminate].
    + eexists. split; [reflexivity | discriminate].
  - split; [reflexivity|]. left. split; [reflexivity | assumption].
Qed.

Lemma run_shows_result_or_error_witness :
  let ui' := snd (handleFormat Stub.helpful Stub.ascii Scenario.typed) in
  loading ui' = false
  /\ ((error ui' = None /\ formattedContent ui' <> [])
      \/ (formattedContent ui' = []
          /\ exists m, error ui' = Some m /\ m <> [])).
Proof.
  apply (run_shows_result_or_error Stub.helpful Stub.ascii Scenario.typed).
  split; [right|]; reflexivity.
Defined.

(** X18: a run of [handleFormat] that a guard stops contacts nobody and
    changes nothing but the error, which becomes a non-empty message: an
    earlier result stays on the page. *)
Theorem guard_failure_keeps_result (co : Collaborators)
    (text : list byte -> jsstring) (ui : Component) :
  (file ui = None /\ blank (textInput ui) = true)
  \/ blank (instructions ui) = true ->
  exists m,
    m <> [] /\ handleFormat co text ui = ([], setError (Some m) ui).
Proof.
  intros H. unfold handleFormat. rewrite !ClientFacts.falsy_trim.
  destruct (blank (textInput ui)
            && match file ui with None => true | Some _ => false end)
    eqn:G1.
  - eexists. split; [|reflexivity]. discriminate.
  - destruct H as [[Hf Ht] | Hb].
    + rewrite Hf, Ht in G1. discriminate G1.
    + rewrite Hb. eexists. split; [|reflexivity]. discriminate.
Qed.

Lemma guard_failure_keeps_result_witness :
  exists m,
    m <> []
    /\ handleFormat Stub.helpful Stub.ascii Scenario.stale
       = ([], setError (Some m) Scenario.stale).
Proof.
  apply (guard_failure_keeps_result Stub.helpful Stub.ascii Scenario.stale).
  right. reflexivity.
Defined.

(** X19: the format button is enabled in every state in which
    [handleFormat] would contact a collaborator: when nothing is loading,
    the button's [disabled] test is never stricter than the guards. *)
Theorem button_enabled_when_contacting (co : Collaborators)
    (text : list byte -> jsstring) (ui : Component) :
  loading ui = false ->
  fst (handleFormat co text ui) <> [] ->
  button_disabled ui = false.
Proof.
  intros Hl Hc. rewrite UIFacts.same_calls in Hc.
  assert (Hne : forall s, blank s = false -> Client.falsy s = false)
    by (intros [|c s]; [discriminate | reflexivity]).
  unfold button_disabled. rewrite Hl. simpl.
  destruct (TableFacts.client_table co text (state_of ui))
    as [Hf Ht Hr | Hg Hb Hr | f Hb Hf Hu Hr | f Hb Hf Hin Hr
        | f e Hb Hf Hd Hx Hr | f v Hb Hf Hd Hx Hr | f Hb Hf Ht Hr
        | Hb Hf Ht Hr];
    rewrite Hr in Hc; try (now elim Hc);
    cbn [state_of Client.instructions Client.file Client.textInput] in *;
    rewrite (Hne _ Hb);
    try (rewrite Hf; now rewrite andb_false_r).
  now rewrite (Hne _ Ht).
Qed.

Lemma button_enabled_when_contacting_witness :
  button_disabled Scenario.typed = false.
Proof.
  apply (button_enabled_when_contacting Stub.helpful Stub.ascii
           Scenario.typed).
  - reflexivity.
  - discriminate.
Defined.
